(** * Sonar Light Switch v3.0: a shallow embedding of the control loop

    The sketch runs on an Arduino Uno WiFi rev 2 (AVR): [unsigned long] and
    [long] are 32 bits wide, [int] is 16 bits wide and [char] is signed.
    Every global of the sketch is a field of [State]; everything the sketch
    reads from the outside (the clock, the radio, the sockets, the pulse
    widths, the NTP client and the solar almanac) is a field of an
    environment record, one field per place where the sketch reads it;
    everything the sketch sends is an [Event] of the output trace. *)

From Stdlib Require Import ZArith List String Ascii Bool Lia DecimalString.
From Stdlib Require NArith DecimalFacts DecimalN.
Import ListNotations.
Open Scope Z_scope.

(** ** Machine integers *)

Module Word.

(** [unsigned long]: arithmetic modulo 2^32. *)
Definition u32 (z : Z) : Z := z mod 4294967296.

(** The cast [(long)x] of an [unsigned long]. *)
Definition s32 (z : Z) : Z := (z + 2147483648) mod 4294967296 - 2147483648.

(** [int]: 16 bits, two's complement. *)
Definition s16 (z : Z) : Z := (z + 32768) mod 65536 - 32768.

(** A [char] (signed, 8 bits) promoted to [int]. *)
Definition schar (b : Z) : Z := (b + 128) mod 256 - 128.

(** The conversion of an [int] to [uint8_t]. *)
Definition u8 (z : Z) : Z := z mod 256.

(** [highByte(w)] and [lowByte(w)]. *)
Definition highByte (w : Z) : Z := Z.land (Z.shiftr w 8) 255.
Definition lowByte (w : Z) : Z := Z.land w 255.

End Word.
Import Word.

(** ** Text *)

Definition dquote : string := String (ascii_of_nat 34) EmptyString.

Definition bytes_of_string (s : string) : list Z :=
  map (fun a => Z.of_N (N_of_ascii a)) (list_ascii_of_string s).

(** The characters of a C string stored in [cs]: those before the first
    NUL. *)
Fixpoint c_str (cs : list Z) : list Z :=
  match cs with
  | [] => []
  | c :: rest => if c =? 0 then [] else c :: c_str rest
  end.

(** The text that the C string functions see in the buffer of a [String]:
    the characters before the first NUL.  [resp += (char)client.read()] keeps
    a NUL that was read in the buffer. *)
Fixpoint c_prefix (s : string) : string :=
  match s with
  | EmptyString => EmptyString
  | String a rest =>
      if Ascii.eqb a zero then EmptyString else String a (c_prefix rest)
  end.

(** [String::indexOf(needle)], that is [indexOf(needle, 0)]: -1 when
    [fromIndex >= len], else [strstr] on the buffer, so the position of the
    first occurrence before the first NUL, or -1. *)
Definition indexOf (resp needle : string) : Z :=
  if (String.length resp =? 0)%nat then -1
  else match String.index 0 needle (c_prefix resp) with
       | Some i => Z.of_nat i
       | None => -1
       end.

(** [%lu] of [sprintf]. *)
Definition decimal (z : Z) : string :=
  NilZero.string_of_uint (N.to_uint (Z.to_N z)).

(** ** Constants of the sketch *)

Definition ping_range : Z := 24 * 74 * 2.
Definition light_length : Z := 60000.
Definition wifi_try_time : Z := 60000.
Definition heartbeatInterval : Z := 1800000.
Definition ssl_keepalive_interval : Z := 25000.
Definition porch_duration : Z := 300000.

Definition cmd_get_sysinfo : string :=
  "{" ++ dquote ++ "system" ++ dquote ++ ":{" ++ dquote ++ "get_sysinfo"
      ++ dquote ++ ":{}}}".

Definition cmd_set_relay_state (state : string) : string :=
  "{" ++ dquote ++ "system" ++ dquote ++ ":{" ++ dquote ++ "set_relay_state"
      ++ dquote ++ ":{" ++ dquote ++ "state" ++ dquote ++ ":" ++ state ++ "}}}".

Definition cmd_on : string := cmd_set_relay_state "1".
Definition cmd_off : string := cmd_set_relay_state "0".

(** The text looked for in the reply to [get_sysinfo]. *)
Definition relay_on_marker : string :=
  dquote ++ "relay_state" ++ dquote ++ ":1".

(** ** The output trace *)

Inductive Event : Type :=
| WiFiBegin                      (* WiFi.begin(ssid, passwd) *)
| Connect (ok : bool)            (* client.connect(porch_light_IP, porch_light_port) *)
| ConnectSSL (ok : bool)         (* client.connectSSL("docs.google.com", 443) *)
| KasaWrite (frame : list Z)     (* the bytes written by one sendKasaCommand *)
| Stop                           (* client.stop() *)
| FormGet (msg : string)         (* the GET request of form_log for msg *)
| KeepAlive                      (* the X-KeepAlive header *)
| Almanac.                       (* sf.sunrise and sf.sunset are evaluated *)

(** ** The globals *)

Record State : Type := mkState {
  pLight : bool;                 (* the level of the relay pin *)
  body_time : Z;
  low_detect_time : Z;
  up_detect_time : Z;
  lastHeartbeat : Z;
  last_ssl_activity : Z;
  porch_auto_off_time : Z;
  cachedSunrise : Z;
  cachedSunset : Z;
  lastSunUpdate : Z;
  logTimeOn : Z;
  logTimeOff : Z;
  logTimeWiFi : Z;
  logTimePorchOn : Z;
  logTimeKasaFail : Z;
  was_connected : bool;          (* static of wifi_check *)
  last_wifi_try : Z              (* static of wifi_check *)
}.

(** The globals as their initialisers leave them; [setup] drives the relay
    pin low. *)
Definition initial : State :=
  {| pLight := false;
     body_time := 0; low_detect_time := 0; up_detect_time := 0;
     lastHeartbeat := u32 (-1800001); last_ssl_activity := 0;
     porch_auto_off_time := 0;
     cachedSunrise := 0; cachedSunset := 0; lastSunUpdate := u32 (-3600001);
     logTimeOn := 0; logTimeOff := 0; logTimeWiFi := 0; logTimePorchOn := 0;
     logTimeKasaFail := 0;
     was_connected := false; last_wifi_try := 0 |}.

Definition set_pLight (v : bool) (s : State) : State :=
  mkState v (body_time s) (low_detect_time s) (up_detect_time s)
    (lastHeartbeat s) (last_ssl_activity s) (porch_auto_off_time s)
    (cachedSunrise s) (cachedSunset s) (lastSunUpdate s) (logTimeOn s)
    (logTimeOff s) (logTimeWiFi s) (logTimePorchOn s) (logTimeKasaFail s)
    (was_connected s) (last_wifi_try s).

Definition set_body_time (v : Z) (s : State) : State :=
  mkState (pLight s) v (low_detect_time s) (up_detect_time s)
    (lastHeartbeat s) (last_ssl_activity s) (porch_auto_off_time s)
    (cachedSunrise s) (cachedSunset s) (lastSunUpdate s) (logTimeOn s)
    (logTimeOff s) (logTimeWiFi s) (logTimePorchOn s) (logTimeKasaFail s)
    (was_connected s) (last_wifi_try s).

Definition set_low_detect_time (v : Z) (s : State) : State :=
  mkState (pLight s) (body_time s) v (up_detect_time s)
    (lastHeartbeat s) (last_ssl_activity s) (porch_auto_off_time s)
    (cachedSunrise s) (cachedSunset s) (lastSunUpdate s) (logTimeOn s)
    (logTimeOff s) (logTimeWiFi s) (logTimePorchOn s) (logTimeKasaFail s)
    (was_connected s) (last_wifi_try s).

Definition set_up_detect_time (v : Z) (s : State) : State :=
  mkState (pLight s) (body_time s) (low_detect_time s) v
    (lastHeartbeat s) (last_ssl_activity s) (porch_auto_off_time s)
    (cachedSunrise s) (cachedSunset s) (lastSunUpdate s) (logTimeOn s)
    (logTimeOff s) (logTimeWiFi s) (logTimePorchOn s) (logTimeKasaFail s)
    (was_connected s) (last_wifi_try s).

Definition set_lastHeartbeat (v : Z) (s : State) : State :=
  mkState (pLight s) (body_time s) (low_detect_time s) (up_detect_time s)
    v (last_ssl_activity s) (porch_auto_off_time s)
    (cachedSunrise s) (cachedSunset s) (lastSunUpdate s) (logTimeOn s)
    (logTimeOff s) (logTimeWiFi s) (logTimePorchOn s) (logTimeKasaFail s)
    (was_connected s) (last_wifi_try s).

Definition set_last_ssl_activity (v : Z) (s : State) : State :=
  mkState (pLight s) (body_time s) (low_detect_time s) (up_detect_time s)
    (lastHeartbeat s) v (porch_auto_off_time s)
    (cachedSunrise s) (cachedSunset s) (lastSunUpdate s) (logTimeOn s)
    (logTimeOff s) (logTimeWiFi s) (logTimePorchOn s) (logTimeKasaFail s)
    (was_connected s) (last_wifi_try s).

Definition set_porch_auto_off_time (v : Z) (s : State) : State :=
  mkState (pLight s) (body_time s) (low_detect_time s) (up_detect_time s)
    (lastHeartbeat s) (last_ssl_activity s) v
    (cachedSunrise s) (cachedSunset s) (lastSunUpdate s) (logTimeOn s)
    (logTimeOff s) (logTimeWiFi s) (logTimePorchOn s) (logTimeKasaFail s)
    (was_connected s) (last_wifi_try s).

Definition set_solar (rise set upd : Z) (s : State) : State :=
  mkState (pLight s) (body_time s) (low_detect_time s) (up_detect_time s)
    (lastHeartbeat s) (last_ssl_activity s) (porch_auto_off_time s)
    rise set upd (logTimeOn s)
    (logTimeOff s) (logTimeWiFi s) (logTimePorchOn s) (logTimeKasaFail s)
    (was_connected s) (last_wifi_try s).

Definition set_wifi_statics (wc : bool) (try : Z) (s : State) : State :=
  mkState (pLight s) (body_time s) (low_detect_time s) (up_detect_time s)
    (lastHeartbeat s) (last_ssl_activity s) (porch_auto_off_time s)
    (cachedSunrise s) (cachedSunset s) (lastSunUpdate s) (logTimeOn s)
    (logTimeOff s) (logTimeWiFi s) (logTimePorchOn s) (logTimeKasaFail s)
    wc try.

(** ** The logging registry

    [events[]] holds pointers to five of the globals; a slot names the global
    an entry points to. *)

Inductive Slot : Type :=
| SlotWiFi | SlotOn | SlotPorchOn | SlotOff | SlotKasaFail.

Record LogEvent : Type := mkLogEvent { timestamp : Slot; msg : string }.

Definition events : list LogEvent :=
  [ mkLogEvent SlotWiFi "WiFi RECONNECTED";
    mkLogEvent SlotOn "Stair light ON";
    mkLogEvent SlotPorchOn "Porch light ON";
    mkLogEvent SlotOff "Stair light OFF";
    mkLogEvent SlotKasaFail "Kasa Porch Timeout" ].

(** [*p] for a registry pointer [p]. *)
Definition deref (p : Slot) (s : State) : Z :=
  match p with
  | SlotWiFi => logTimeWiFi s
  | SlotOn => logTimeOn s
  | SlotPorchOn => logTimePorchOn s
  | SlotOff => logTimeOff s
  | SlotKasaFail => logTimeKasaFail s
  end.

(** [*p = v]. *)
Definition assign (p : Slot) (v : Z) (s : State) : State :=
  mkState (pLight s) (body_time s) (low_detect_time s) (up_detect_time s)
    (lastHeartbeat s) (last_ssl_activity s) (porch_auto_off_time s)
    (cachedSunrise s) (cachedSunset s) (lastSunUpdate s)
    (match p with SlotOn => v | _ => logTimeOn s end)
    (match p with SlotOff => v | _ => logTimeOff s end)
    (match p with SlotWiFi => v | _ => logTimeWiFi s end)
    (match p with SlotPorchOn => v | _ => logTimePorchOn s end)
    (match p with SlotKasaFail => v | _ => logTimeKasaFail s end)
    (was_connected s) (last_wifi_try s).

(** ** What the sketch reads from the outside

    One record per function, one field per read.  A clock field is the number
    of milliseconds since power-up as an unbounded integer; [millis] is what
    the sketch sees of it, an [unsigned long]. *)

Definition millis (clock : Z) : Z := u32 clock.

(** The expression [millis() ? millis() : 1]: two reads of the clock. *)
Definition stamp (first second : Z) : Z :=
  if millis first =? 0 then 1 else millis second.

Record WifiEnv : Type := mkWifiEnv {
  wf_status : bool;              (* WiFi.status() == WL_CONNECTED on entry *)
  wf_clock_a : Z;                (* first millis() of the branch taken *)
  wf_clock_b : Z;                (* second millis() of the branch taken *)
  wf_status_after : bool         (* WiFi.status() == WL_CONNECTED after WiFi.begin *)
}.

Record DarkEnv : Type := mkDarkEnv {
  dk_clock : Z;                  (* millis() *)
  dk_epoch : Z;                  (* timeClient.getEpochTime() *)
  dk_hours : Z;                  (* timeClient.getHours() *)
  dk_minutes : Z;                (* timeClient.getMinutes() *)
  dk_sunrise : Z;                (* sf.sunrise(...) for the date of the epoch *)
  dk_sunset : Z                  (* sf.sunset(...) for the date of the epoch *)
}.

Record PorchOnEnv : Type := mkPorchOnEnv {
  on_wifi : bool;                (* WiFi.status() == WL_CONNECTED *)
  on_connect1 : bool;            (* the connection for get_sysinfo *)
  on_resp : string;              (* resp when the read loop ends *)
  on_connect2 : bool;            (* the connection for set_relay_state *)
  on_clock_deadline : Z;         (* millis() in millis() + porch_duration *)
  on_clock_a : Z;                (* first millis() of the stamp written *)
  on_clock_b : Z                 (* second millis() of the stamp written *)
}.

Record PorchOffEnv : Type := mkPorchOffEnv {
  off_wifi : bool;               (* WiFi.status() == WL_CONNECTED *)
  off_connect : bool;            (* client.connect(...) *)
  off_clock : Z                  (* millis() of the branch taken *)
}.

Record FormLogEnv : Type := mkFormLogEnv {
  fl_wifi : bool;                (* WiFi.status() == WL_CONNECTED *)
  fl_connected : bool;           (* client.connected() on entry *)
  fl_connectSSL : bool;          (* client.connectSSL(...) *)
  fl_clock : Z                   (* millis() stored in last_ssl_activity *)
}.

Record KeepEnv : Type := mkKeepEnv {
  ks_connected : bool;           (* client.connected() *)
  ks_connectSSL : bool;          (* client.connectSSL(...) *)
  ks_clock : Z                   (* millis() stored in last_ssl_activity *)
}.

Record HeartbeatEnv : Type := mkHeartbeatEnv {
  hb_wifi : bool;                (* WiFi.status() == WL_CONNECTED *)
  hb_connect : bool              (* client.connect(...) *)
}.

Record Env : Type := mkEnv {
  clock : Z;                     (* millis() at the top of loop *)
  pulse_lower : Z;               (* pulseIn(pEchoL, HIGH, 25000) *)
  pulse_upper : Z;               (* pulseIn(pEchoU, HIGH, 25000) *)
  env_wifi : WifiEnv;
  env_dark : DarkEnv;
  env_on : PorchOnEnv;
  env_off : PorchOffEnv;
  env_log : FormLogEnv;
  env_keep : KeepEnv;
  env_hb : HeartbeatEnv
}.

(** ** The Kasa protocol *)

(** The body of the [for] loop of [sendKasaCommand]: [key ^= msg[i]] on an
    [int] key, and the byte that [client.write] sends. *)
Fixpoint obfuscate (key : Z) (cs : list Z) : list Z :=
  match cs with
  | [] => []
  | c :: rest =>
      let key' := Z.lxor key (schar c) in
      u8 key' :: obfuscate key' rest
  end.

Definition kasa_frame (m : string) : list Z :=
  let cs := c_str (bytes_of_string m) in
  let len := Z.of_nat (List.length cs) in
  [0; 0; highByte len; lowByte len] ++ obfuscate 171 cs.

Definition sendKasaCommand (m : string) : list Event := [KasaWrite (kasa_frame m)].

(** Modelled from the spec: the decode transform that matches the
    obfuscation.  The sketch has none (it never decodes a reply); the spec
    names it in its round-trip property: each plain byte is the key XOR the
    next obfuscated byte, and the key becomes that obfuscated byte. *)
Fixpoint deobfuscate (key : Z) (cs : list Z) : list Z :=
  match cs with
  | [] => []
  | c :: rest => Z.lxor key c :: deobfuscate c rest
  end.

Definition porch_on (e : PorchOnEnv) (s : State) : State * list Event :=
  if negb (on_wifi e) then (s, [])
  else if on_connect1 e then
    let query := [Connect true] ++ sendKasaCommand cmd_get_sysinfo ++ [Stop] in
    if indexOf (on_resp e) relay_on_marker =? -1 then
      if on_connect2 e then
        let s1 := set_porch_auto_off_time
                    (u32 (millis (on_clock_deadline e) + porch_duration)) s in
        let s2 := assign SlotPorchOn (stamp (on_clock_a e) (on_clock_b e)) s1 in
        (s2, query ++ [Connect true] ++ sendKasaCommand cmd_on ++ [Stop])
      else (s, query ++ [Connect false])
    else (s, query)
  else (assign SlotKasaFail (stamp (on_clock_a e) (on_clock_b e)) s,
        [Connect false]).

Definition porch_off (e : PorchOffEnv) (s : State) : State * list Event :=
  if negb (off_wifi e) then
    (set_porch_auto_off_time (u32 (millis (off_clock e) + 10000)) s, [])
  else if off_connect e then
    (set_porch_auto_off_time 0 s,
     [Connect true] ++ sendKasaCommand cmd_off ++ [Stop])
  else
    (set_porch_auto_off_time (u32 (millis (off_clock e) + 60000)) s,
     [Connect false]).

(** ** Network and utilities *)

Definition keepSSLWarm (e : KeepEnv) (s : State) : State * list Event :=
  let out := if negb (ks_connected e)
             then [Stop; ConnectSSL (ks_connectSSL e)]
             else [KeepAlive] in
  (set_last_ssl_activity (millis (ks_clock e)) s, out).

(** [form_log] returns its [int] result first.  The request line carries
    [m] percent-encoded; the trace records [m] itself. *)
Definition form_log (e : FormLogEnv) (m : string) (s : State)
  : Z * State * list Event :=
  if negb (fl_wifi e) then (0, s, [])
  else if negb (fl_connected e) && negb (fl_connectSSL e) then
    (0, s, [Stop; ConnectSSL false])
  else
    let opened := if negb (fl_connected e) then [Stop; ConnectSSL true]
                  else [] in
    (1, set_last_ssl_activity (millis (fl_clock e)) s, opened ++ [FormGet m]).

Definition porchLightHeartbeat (e : HeartbeatEnv) (t : Z) (s : State)
  : State * list Event :=
  if heartbeatInterval <? u32 (t - lastHeartbeat s) then
    let s1 := set_lastHeartbeat t s in
    if hb_wifi e then
      if hb_connect e then
        (s1, [Connect true] ++ sendKasaCommand cmd_get_sysinfo ++ [Stop])
      else (s1, [Connect false])
    else (s1, [])
  else (s, []).

(** [wifi_check] returns its [int] result first. *)
Definition wifi_check (e : WifiEnv) (s : State) : Z * State * list Event :=
  if wf_status e then
    if negb (was_connected s) then
      (1, set_wifi_statics true (last_wifi_try s)
            (assign SlotWiFi (stamp (wf_clock_a e) (wf_clock_b e)) s), [])
    else (1, s, [])
  else
    let s1 := set_wifi_statics false (last_wifi_try s) s in
    if u32 (millis (wf_clock_a e) - last_wifi_try s1) <? wifi_try_time then
      (0, s1, [])
    else
      (Z.b2z (wf_status_after e),
       set_wifi_statics false (millis (wf_clock_b e)) s1, [WiFiBegin]).

(** [find_body] on the two pulse widths that [pulseIn] returns. *)
Definition find_body (pulseL pulseU : Z) : Z :=
  let distL := u32 pulseL in
  let body := if (distL <? ping_range) && negb (distL =? 0) then 1 else 0 in
  let distU := u32 pulseU in
  if (distU <? ping_range) && negb (distU =? 0) then Z.lor body 2 else body.

Definition currentMin (e : DarkEnv) : Z :=
  s16 (s16 (dk_hours e * 60) + dk_minutes e).

Definition isItDark (e : DarkEnv) (s : State) : bool * State * list Event :=
  let the_time := millis (dk_clock e) in
  let epochTime := u32 (dk_epoch e) in
  if epochTime <? 1735689600 then
    ((1020 <=? currentMin e) || (currentMin e <=? 480), s, [])
  else
    let '(s1, out) :=
      if 3600000 <? u32 (the_time - lastSunUpdate s) then
        (set_solar (s16 (dk_sunrise e)) (s16 (dk_sunset e)) the_time s,
         [Almanac])
      else (s, []) in
    ((s16 (cachedSunset s1 - 15) <=? currentMin e)
     || (currentMin e <=? s16 (cachedSunrise s1 + 15)), s1, out).

(** [setup] writes no global itself; its call of [form_log] may. *)
Definition setup (e : FormLogEnv) : State * list Event :=
  let '(_, s, o) := form_log e "SYSTEM BOOT V3.0" initial in
  (s, WiFiBegin :: o).

(** The globals after a [setup] that ends before the radio is associated. *)
Definition boot : State := fst (setup (mkFormLogEnv false false false 0)).

(** ** The loop

    [loop] runs four blocks in a row after [wifi_check]; each block is a
    definition of its own.  [updateStatusLEDs] only writes indicator pins
    that nothing reads, [timeClient.update()], [wdt_reset()] and [delay(100)]
    touch no global: they are left out. *)

Definition bit (mask sensor : Z) : bool := negb (Z.land sensor mask =? 0).

(** [the_time ? the_time : 1] *)
Definition or_one (the_time : Z) : Z := if the_time =? 0 then 1 else the_time.

(** [if (sensor) { ... }] *)
Definition on_sensor (e : Env) (the_time sensor : Z) (s : State)
  : State * list Event :=
  if sensor =? 0 then (s, [])
  else
    let s1 := if bit 1 sensor then set_low_detect_time the_time s else s in
    let s2 := if bit 2 sensor then set_up_detect_time the_time s1 else s1 in
    let '(dark, s3, o3) := isItDark (env_dark e) s2 in
    if dark then
      let s4 := set_body_time the_time s3 in
      if negb (pLight s4) then
        (assign SlotOn (or_one the_time) (set_pLight true s4), o3)
      else if bit 2 sensor
              && (u32 (the_time - low_detect_time s4) <? 40000)
              && (4000 <? u32 (the_time - low_detect_time s4)) then
        let '(s5, o5) := porch_on (env_on e) s4 in (s5, o3 ++ o5)
      else (s4, o3)
    else (s3, o3).

(** [if (digitalRead(pLight) && (the_time - body_time >= light_length))] *)
Definition light_timeout (the_time : Z) (s : State) : State :=
  if pLight s && (light_length <=? u32 (the_time - body_time s)) then
    assign SlotOff (or_one the_time) (set_pLight false s)
  else s.

(** [if (porch_auto_off_time != 0 && (long)(the_time - porch_auto_off_time) >= 0)] *)
Definition porch_timeout (e : Env) (the_time : Z) (s : State)
  : State * list Event :=
  if negb (porch_auto_off_time s =? 0)
     && (0 <=? s32 (the_time - porch_auto_off_time s)) then
    porch_off (env_off e) s
  else (s, []).

(** [sprintf(logBuf, "%s (%lus ago)", ...)] *)
Definition format_event (m : string) (age : Z) : string :=
  (m ++ " (" ++ decimal age ++ "s ago)")%string.

(** The [for] loop over [events]: the result says whether [loggedSomething]
    was set. *)
Fixpoint scan_events (evs : list LogEvent) (e : Env) (the_time : Z)
  (s : State) : bool * State * list Event :=
  match evs with
  | [] => (false, s, [])
  | ev :: rest =>
      if 0 <? deref (timestamp ev) s then
        let logBuf :=
          format_event (msg ev)
            (u32 (the_time - deref (timestamp ev) s) / 1000) in
        let '(r, s1, o1) := form_log (env_log e) logBuf s in
        (true, (if r =? 0 then s1 else assign (timestamp ev) 0 s1), o1)
      else scan_events rest e the_time s
  end.

Definition quiet (the_time : Z) (s : State) : bool :=
  (3000 <? u32 (the_time - low_detect_time s))
  && (3000 <? u32 (the_time - up_detect_time s)).

(** [if (the_time - low_detect_time > 3000 && the_time - up_detect_time > 3000)] *)
Definition drain_log (e : Env) (the_time : Z) (s : State)
  : State * list Event :=
  if quiet the_time s then
    let '(loggedSomething, s1, o1) := scan_events events e the_time s in
    if negb loggedSomething then
      if ssl_keepalive_interval <? u32 (the_time - last_ssl_activity s1) then
        keepSSLWarm (env_keep e) s1
      else porchLightHeartbeat (env_hb e) the_time s1
    else (s1, o1)
  else (s, []).

Definition loop (e : Env) (s : State) : State * list Event :=
  let the_time := millis (clock e) in
  let '(_, s1, o1) := wifi_check (env_wifi e) s in
  let sensor := find_body (pulse_lower e) (pulse_upper e) in
  let '(s2, o2) := on_sensor e the_time sensor s1 in
  let s3 := light_timeout the_time s2 in
  let '(s4, o4) := porch_timeout e the_time s3 in
  let '(s5, o5) := drain_log e the_time s4 in
  (s5, o1 ++ o2 ++ o4 ++ o5).

(** A run of the loop: one environment per pass. *)
Fixpoint run (es : list Env) (s : State) : State * list Event :=
  match es with
  | [] => (s, [])
  | e :: rest =>
      let '(s1, o1) := loop e s in
      let '(s2, o2) := run rest s1 in
      (s2, o1 ++ o2)
  end.

(** ** Reading a trace *)

Fixpoint list_Z_eqb (a b : list Z) : bool :=
  match a, b with
  | [], [] => true
  | x :: a', y :: b' => (x =? y) && list_Z_eqb a' b'
  | _, _ => false
  end.

Definition is_kasa (m : string) (ev : Event) : bool :=
  match ev with
  | KasaWrite frame => list_Z_eqb frame (kasa_frame m)
  | _ => false
  end.

Definition is_connect (ev : Event) : bool :=
  match ev with Connect _ => true | _ => false end.

Definition is_wifi_begin (ev : Event) : bool :=
  match ev with WiFiBegin => true | _ => false end.

Definition is_form_get (ev : Event) : bool :=
  match ev with FormGet _ => true | _ => false end.

Definition is_almanac (ev : Event) : bool :=
  match ev with Almanac => true | _ => false end.

Definition count (p : Event -> bool) (tr : list Event) : Z :=
  Z.of_nat (List.length (filter p tr)).

(** The number of [set_relay_state] commands with state 1, resp. 0. *)
Definition porch_on_commands (tr : list Event) : Z := count (is_kasa cmd_on) tr.
Definition porch_off_commands (tr : list Event) : Z := count (is_kasa cmd_off) tr.

(** * Vocabulary of the properties *)

Definition is_byte (b : Z) : Prop := 0 <= b < 256.

Ltac break_if :=
  match goal with
  | |- context [if ?b then _ else _] => destruct b eqn:?
  | |- context [match ?p with pair _ _ => _ end] => destruct p eqn:?
  end.

Ltac frame := intros; repeat break_if; cbn; repeat split; reflexivity.

(** The stairway light and the detection times. *)
Definition same_light (s s' : State) : Prop :=
  pLight s' = pLight s /\ body_time s' = body_time s /\
  low_detect_time s' = low_detect_time s /\
  up_detect_time s' = up_detect_time s.

(** The solar cache. *)
Definition same_solar (s s' : State) : Prop :=
  cachedSunrise s' = cachedSunrise s /\ cachedSunset s' = cachedSunset s /\
  lastSunUpdate s' = lastSunUpdate s.

(** The statics of [wifi_check]. *)
Definition same_wifi (s s' : State) : Prop :=
  was_connected s' = was_connected s /\ last_wifi_try s' = last_wifi_try s.

Definition same_porch (s s' : State) : Prop :=
  porch_auto_off_time s' = porch_auto_off_time s.

(** The answer of [isItDark], without its effect on the solar cache. *)
Definition is_dark (e : DarkEnv) (s : State) : bool := fst (fst (isItDark e s)).

(** A sensor saw a body in this pass and [isItDark] answered yes. *)
Definition detected_in_dark (e : Env) (s : State) : bool :=
  negb (find_body (pulse_lower e) (pulse_upper e) =? 0)
  && is_dark (env_dark e) s.

(** A pass of the scenarios below.  Every clock read of the pass returns
    the same time [t]; the radio is associated; NTP has not synchronised
    (epoch 0), so [isItDark] uses the fixed window and [hours] decides; the
    telemetry socket is open. *)
Definition pass (t pulseL pulseU hours : Z) (on : PorchOnEnv)
  (off : PorchOffEnv) : Env :=
  mkEnv t pulseL pulseU
    (mkWifiEnv true t t true)
    (mkDarkEnv t 0 hours 0 0 0)
    on off
    (mkFormLogEnv true true true t)
    (mkKeepEnv true true t)
    (mkHeartbeatEnv true true).

(** The switch accepts both connections and replies [resp] to the query. *)
Definition switch_up (t : Z) (resp : string) : PorchOnEnv :=
  mkPorchOnEnv true true resp true t t t.

(** The switch refuses the connection. *)
Definition switch_down (t : Z) : PorchOnEnv :=
  mkPorchOnEnv true false EmptyString false t t t.

Definition off_up (t : Z) : PorchOffEnv := mkPorchOffEnv true true t.

(** The time of the latest pass of [es] in which a sensor saw a body. *)
Fixpoint last_detection (es : list Env) : option Z :=
  match es with
  | [] => None
  | e :: rest =>
      match last_detection rest with
      | Some t => Some t
      | None =>
          if find_body (pulse_lower e) (pulse_upper e) =? 0 then None
          else Some (millis (clock e))
      end
  end.

(** The gap between the lower and the upper detection counts as a walk up the
    stairs. *)
Definition in_window (g : Z) : bool := (g <? 40000) && (4000 <? g).

(** [porch_on] reaches its [set_relay_state] command: the radio is
    associated, both connections succeed and [indexOf] does not find the
    marker in the reply to the query as it was read. *)
Definition switch_ready (e : PorchOnEnv) : bool :=
  on_wifi e && on_connect1 e
  && (indexOf (on_resp e) relay_on_marker =? -1) && on_connect2 e.

(** The branch of [loop] that calls [porch_on] is taken in this pass. *)
Definition porch_attempt (e : Env) (s : State) : bool :=
  let t := millis (clock e) in
  let sensor := find_body (pulse_lower e) (pulse_upper e) in
  let low := if bit 1 sensor then t else low_detect_time s in
  detected_in_dark e s && pLight s && bit 2 sensor && in_window (u32 (t - low)).

(** The text that [resp] holds after the bytes [bs] were read from the
    connection, each appended by [resp += (char)client.read()]. *)
Definition string_of_bytes (bs : list Z) : string :=
  string_of_list_ascii (map (fun b => ascii_of_N (Z.to_N b)) bs).

(** Modelled from the spec: the rolling XOR cipher of the wire protocol of
    the switch, "each output byte = key XOR next-plaintext-byte, and the key
    is updated to that output byte before processing the next byte". *)
Fixpoint rolling_xor (key : Z) (cs : list Z) : list Z :=
  match cs with
  | [] => []
  | c :: rest => let out := Z.lxor key c in out :: rolling_xor out rest
  end.

(** Modelled from the spec: a message of the wire protocol, "4-byte header =
    two reserved zero bytes + 16-bit big-endian payload length, followed by
    the JSON payload transformed by a rolling XOR cipher seeded with key
    0xAB", as the text that the receiving side collects byte by byte. *)
Definition wire_message (json : string) : string :=
  let cs := bytes_of_string json in
  let len := Z.of_nat (List.length cs) in
  string_of_bytes
    ([0; 0; (len / 256) mod 256; len mod 256] ++ rolling_xor 171 cs).

(** Modelled from the spec: the answer of the switch to the query of the
    "current relay state", a JSON text, reduced to the one field that
    [porch_on] looks for. *)
Definition sysinfo (relay : string) : string :=
  "{" ++ dquote ++ "system" ++ dquote ++ ":{" ++ dquote ++ "get_sysinfo"
      ++ dquote ++ ":{" ++ dquote ++ "relay_state" ++ dquote ++ ":" ++ relay
      ++ "}}}".

(** Two passes of the scenarios: the lower sensor alone sees a body at
    22:00, and the upper sensor alone sees one, the switch replying [resp]. *)
Definition lower_pass (t : Z) : Env :=
  pass t 1000 0 22 (switch_down t) (off_up t).

Definition upper_pass (t : Z) (resp : string) : Env :=
  pass t 0 1000 22 (switch_up t resp) (off_up t).

(** [wifi_check] calls [WiFi.begin] in this pass. *)
Definition wifi_attempt (e : WifiEnv) (s : State) : bool :=
  negb (wf_status e)
  && (wifi_try_time <=? u32 (millis (wf_clock_a e) - last_wifi_try s)).

(** A pass with the radio down and nobody on the stairs. *)
Definition offline_pass (t : Z) : Env :=
  mkEnv t 0 0
    (mkWifiEnv false t t false)
    (mkDarkEnv t 0 22 0 0 0)
    (mkPorchOnEnv false false EmptyString false t t t)
    (mkPorchOffEnv false false t)
    (mkFormLogEnv false false false t)
    (mkKeepEnv false false t)
    (mkHeartbeatEnv false false).

(** The test of [loop] before [porch_off]: the deadline is set and
    [(long)(the_time - porch_auto_off_time) >= 0]. *)
Definition deadline_due (t : Z) (s : State) : bool :=
  negb (porch_auto_off_time s =? 0)
  && (0 <=? s32 (t - porch_auto_off_time s)).

(** [isItDark] evaluates the almanac in this call. *)
Definition recomputes (e : DarkEnv) (s : State) : bool :=
  (1735689600 <=? u32 (dk_epoch e))
  && (3600000 <? u32 (millis (dk_clock e) - lastSunUpdate s)).

(** The passes of [loop] seen from the solar cache: only [isItDark] writes
    it, and [isItDark] runs when a sensor saw a body. *)
Definition pass_recomputes (e : Env) (s : State) : bool :=
  negb (find_body (pulse_lower e) (pulse_upper e) =? 0)
  && recomputes (env_dark e) s.

Definition Slot_eqb (p q : Slot) : bool :=
  match p, q with
  | SlotWiFi, SlotWiFi | SlotOn, SlotOn | SlotPorchOn, SlotPorchOn
  | SlotOff, SlotOff | SlotKasaFail, SlotKasaFail => true
  | _, _ => false
  end.

(** The entry the [for] loop stops at: the first one, in the order of the
    registry, whose timestamp is above zero. *)
Definition first_pending (evs : list LogEvent) (s : State) : option LogEvent :=
  find (fun ev => 0 <? deref (timestamp ev) s) evs.

(** What [loop] hands to [form_log] for entry [ev]. *)
Definition log_line (ev : LogEvent) (t : Z) (s : State) : string :=
  format_event (msg ev) (u32 (t - deref (timestamp ev) s) / 1000).

(** ** The request of [form_log]

    [form_log] writes its request character by character.  [client.print]
    of a [char] with [HEX] prints the character, promoted to [int] and then
    to [long], as an unsigned number in base 16 ([Print::printNumber]):
    uppercase digits, no leading zero. *)

(** The characters [form_log] prints as they are. *)
Definition unreserved (c : Z) : bool :=
  ((97 <=? c) && (c <=? 122)) || ((65 <=? c) && (c <=? 90))
  || ((48 <=? c) && (c <=? 57))
  || (c =? 45) || (c =? 46) || (c =? 95) || (c =? 126).

(** [c < 10 ? c + '0' : c + 'A' - 10] *)
Definition digit_char (d : Z) : Z := if d <? 10 then d + 48 else d + 65 - 10.

(** The [do ... while (n)] loop of [Print::printNumber], which fills its
    buffer from the end; [fuel] bounds the number of digits. *)
Fixpoint printNumber (fuel : nat) (n base : Z) (acc : list Z) : list Z :=
  match fuel with
  | O => acc
  | S fuel' =>
      let acc' := digit_char (n mod base) :: acc in
      if n / base =? 0 then acc' else printNumber fuel' (n / base) base acc'
  end.

(** [client.print( *msg, HEX)]: the buffer of [printNumber] holds the 32
    digits of an [unsigned long] in base 2. *)
Definition print_hex (c : Z) : list Z := printNumber 32 (u32 c) 16 [].

(** The [while ( *msg != 0)] loop of [form_log] over the characters stored
    at [msg]. *)
Fixpoint url_encode (cs : list Z) : list Z :=
  match cs with
  | [] => []
  | b :: rest =>
      if b =? 0 then []
      else
        let c := schar b in
        (if unreserved c then [u8 c]
         else [37] ++ (if c <? 16 then [48] else []) ++ print_hex c)
        ++ url_encode rest
  end.

(** The value of a hexadecimal digit, and percent-decoding as RFC 3986
    defines it: the reading of the request on the other side. *)
Definition hex_value (d : Z) : Z := if d <? 58 then d - 48 else d - 55.

Fixpoint url_decode (cs : list Z) : list Z :=
  match cs with
  | [] => []
  | c :: rest =>
      if c =? 37 then
        match rest with
        | hi :: lo :: rest' =>
            (16 * hex_value hi + hex_value lo) :: url_decode rest'
        | _ => []
        end
      else c :: url_decode rest
  end.

(** A character of 7-bit ASCII other than NUL. *)
Definition is_ascii (b : Z) : Prop := 0 < b < 128.

(** What the percent-encoding of one ASCII character should be. *)
Definition percent_encoded (b : Z) : list Z :=
  if unreserved b then [b]
  else [37; digit_char (b / 16); digit_char (b mod 16)].

(** ** More vocabulary *)

(** 1 when the auto-off deadline is set, 0 when it is not. *)
Definition deadline_set (s : State) : Z :=
  if porch_auto_off_time s =? 0 then 0 else 1.

(** The number of registry entries waiting to be sent. *)
Definition pending_count (s : State) : Z :=
  Z.of_nat (List.length
              (filter (fun ev => 0 <? deref (timestamp ev) s) events)).

(** The traffic of the telemetry socket. *)
Definition is_telemetry (ev : Event) : bool :=
  match ev with
  | FormGet _ | KeepAlive | ConnectSSL _ => true
  | _ => false
  end.

(** The clocks of the heartbeat and of the telemetry socket. *)
Definition same_net (s s' : State) : Prop :=
  lastHeartbeat s' = lastHeartbeat s /\
  last_ssl_activity s' = last_ssl_activity s.

(** A trace made of whole sessions with the switch: each accepted
    connection carries one frame and is closed, and a refused connection
    ends the trace. *)
Fixpoint closed_sessions (tr : list Event) : bool :=
  match tr with
  | [] => true
  | Connect false :: rest => match rest with [] => true | _ => false end
  | Connect true :: KasaWrite _ :: Stop :: rest => closed_sessions rest
  | _ => false
  end.

(** The relay command that was sent last: [Some true] after a porch-on
    command, [Some false] after a porch-off command, [acc] when the trace
    holds neither. *)
Definition relay_step (acc : option bool) (ev : Event) : option bool :=
  if is_kasa cmd_on ev then Some true
  else if is_kasa cmd_off ev then Some false
  else acc.

Definition last_relay_from (acc : option bool) (tr : list Event)
  : option bool :=
  fold_left relay_step tr acc.

Definition last_relay (tr : list Event) : option bool :=
  last_relay_from None tr.

(** None of the three deadlines that the calls of pass [e] would store is
    the 0 that stands for no deadline. *)
Definition deadlines_nonzero (e : Env) : Prop :=
  u32 (millis (on_clock_deadline (env_on e)) + porch_duration) <> 0 /\
  u32 (millis (off_clock (env_off e)) + 60000) <> 0 /\
  u32 (millis (off_clock (env_off e)) + 10000) <> 0.

(** * Properties *)

(** ** The obfuscation of the Kasa protocol *)

Lemma u8_lxor (a b : Z) : u8 (Z.lxor a b) = Z.lxor (u8 a) (u8 b).
Proof.
  unfold u8. change 256 with (2 ^ 8).
  rewrite <- !Z.land_ones by lia.
  apply Z.bits_inj'; intros n Hn.
  rewrite !Z.lxor_spec, !Z.land_spec, Z.lxor_spec.
  destruct (Z.testbit a n), (Z.testbit b n), (Z.testbit (Z.ones 8) n);
    reflexivity.
Qed.

Lemma u8_schar (b : Z) : u8 (schar b) = u8 b.
Proof.
  unfold u8, schar.
  rewrite Zminus_mod, Zmod_mod, <- Zminus_mod.
  f_equal; lia.
Qed.

Lemma u8_idem (a : Z) : u8 (u8 a) = u8 a.
Proof. unfold u8. apply Zmod_mod. Qed.

Lemma u8_byte (b : Z) : is_byte b -> u8 b = b.
Proof. unfold u8, is_byte. intros H. apply Z.mod_small; exact H. Qed.

Lemma lxor_cancel (k c : Z) : Z.lxor k (Z.lxor k c) = c.
Proof. now rewrite <- Z.lxor_assoc, Z.lxor_nilpotent, Z.lxor_0_l. Qed.

(** Only the low byte of the [int] key matters. *)
Lemma obfuscate_low_byte (cs : list Z) :
  forall key, obfuscate key cs = obfuscate (u8 key) cs.
Proof.
  induction cs as [|c rest IH]; intros key; [reflexivity|].
  cbn [obfuscate].
  assert (E : u8 (Z.lxor key (schar c)) = u8 (Z.lxor (u8 key) (schar c)))
    by now rewrite !u8_lxor, u8_idem.
  rewrite E. f_equal.
  rewrite (IH (Z.lxor key (schar c))), (IH (Z.lxor (u8 key) (schar c))).
  now rewrite E.
Qed.

Lemma deobfuscate_obfuscate (cs : list Z) :
  Forall is_byte cs ->
  forall key, deobfuscate (u8 key) (obfuscate key cs) = cs.
Proof.
  induction 1 as [|c rest Hc _ IH]; intros key; [reflexivity|].
  cbn [obfuscate deobfuscate].
  rewrite IH, u8_lxor, lxor_cancel, u8_schar, (u8_byte c Hc).
  reflexivity.
Qed.

Lemma obfuscate_deobfuscate (cs : list Z) :
  Forall is_byte cs ->
  forall key, is_byte key -> obfuscate key (deobfuscate key cs) = cs.
Proof.
  induction 1 as [|c rest Hc _ IH]; intros key Hk; [reflexivity|].
  cbn [obfuscate deobfuscate].
  assert (E : u8 (Z.lxor key (schar (Z.lxor key c))) = c).
  { rewrite u8_lxor, u8_schar, u8_lxor, (u8_byte key Hk), (u8_byte c Hc).
    apply lxor_cancel. }
  rewrite obfuscate_low_byte, E, (IH c Hc).
  reflexivity.
Qed.

Lemma bytes_of_string_bytes (m : string) : Forall is_byte (bytes_of_string m).
Proof.
  unfold bytes_of_string. apply Forall_forall. intros b Hb.
  apply in_map_iff in Hb. destruct Hb as [a [<- _]].
  pose proof (N_ascii_bounded a). unfold is_byte. lia.
Qed.

(** Obfuscating twice does not give the message back: the transform is
    undone by [deobfuscate], not by itself. *)
Lemma obfuscate_not_involutive :
  obfuscate 171 (obfuscate 171 [1; 2]) <> [1; 2].
Proof. vm_compute. discriminate. Qed.

(** C8. The rolling XOR of [sendKasaCommand], seeded with 0xAB, and the
    matching decode transform undo each other on every sequence of bytes:
    decoding the obfuscation of [x] gives [x], and obfuscating the decoding
    of [x] gives [x]. *)
Theorem kasa_obfuscation_round_trip (x : list Z) :
  Forall is_byte x ->
  deobfuscate 171 (obfuscate 171 x) = x /\
  obfuscate 171 (deobfuscate 171 x) = x.
Proof.
  intros Hx. split.
  - exact (deobfuscate_obfuscate x Hx 171).
  - apply obfuscate_deobfuscate; [exact Hx | unfold is_byte; lia].
Qed.

Lemma kasa_obfuscation_round_trip_witness :
  Forall is_byte (bytes_of_string cmd_on) /\
  deobfuscate 171 (obfuscate 171 (bytes_of_string cmd_on))
    = bytes_of_string cmd_on /\
  obfuscate 171 (deobfuscate 171 (bytes_of_string cmd_on))
    = bytes_of_string cmd_on.
Proof.
  assert (H : Forall is_byte (bytes_of_string cmd_on))
    by apply bytes_of_string_bytes.
  split; [exact H | exact (kasa_obfuscation_round_trip _ H)].
Defined.

(** ** What each function leaves alone *)

Lemma wifi_check_frame e s :
  let s' := snd (fst (wifi_check e s)) in
  same_light s s' /\ same_solar s s' /\ same_porch s s'.
Proof. unfold wifi_check, same_light, same_solar, same_porch. frame. Qed.

Lemma isItDark_frame e s :
  let s' := snd (fst (isItDark e s)) in
  same_light s s' /\ same_wifi s s' /\ same_porch s s'.
Proof. unfold isItDark, same_light, same_wifi, same_porch. frame. Qed.

Lemma porch_on_frame e s :
  let s' := fst (porch_on e s) in
  same_light s s' /\ same_solar s s' /\ same_wifi s s'.
Proof. unfold porch_on, same_light, same_solar, same_wifi. frame. Qed.

Lemma porch_off_frame e s :
  let s' := fst (porch_off e s) in
  same_light s s' /\ same_solar s s' /\ same_wifi s s' /\
  forall p, deref p s' = deref p s.
Proof.
  unfold porch_off, same_light, same_solar, same_wifi.
  intros; repeat break_if; cbn; repeat split; try reflexivity;
    intros []; reflexivity.
Qed.

Lemma form_log_frame e m s :
  let s' := snd (fst (form_log e m s)) in
  same_light s s' /\ same_solar s s' /\ same_wifi s s' /\ same_porch s s' /\
  forall p, deref p s' = deref p s.
Proof.
  unfold form_log, same_light, same_solar, same_wifi, same_porch.
  intros; repeat break_if; cbn; repeat split; try reflexivity;
    intros []; reflexivity.
Qed.

Lemma assign_frame p v s :
  let s' := assign p v s in
  same_light s s' /\ same_solar s s' /\ same_wifi s s' /\ same_porch s s'.
Proof. unfold same_light, same_solar, same_wifi, same_porch. frame. Qed.

Lemma scan_events_frame evs e t s :
  let s' := snd (fst (scan_events evs e t s)) in
  same_light s s' /\ same_solar s s' /\ same_wifi s s' /\ same_porch s s'.
Proof.
  induction evs as [|ev rest IH]; cbn [scan_events].
  - unfold same_light, same_solar, same_wifi, same_porch. frame.
  - destruct (0 <? deref (timestamp ev) s); [|exact IH].
    pose proof (form_log_frame (env_log e)
      (format_event (msg ev) (u32 (t - deref (timestamp ev) s) / 1000)) s) as F.
    destruct (form_log _ _ s) as [[r s1] o1]. cbn in F |- *.
    unfold same_light, same_solar, same_wifi, same_porch in *.
    destruct (r =? 0); cbn; intuition congruence.
Qed.

Lemma drain_log_frame e t s :
  let s' := fst (drain_log e t s) in
  same_light s s' /\ same_solar s s' /\ same_wifi s s' /\ same_porch s s'.
Proof.
  unfold drain_log.
  destruct (quiet t s);
    [|unfold same_light, same_solar, same_wifi, same_porch; frame].
  pose proof (scan_events_frame events e t s) as F.
  destruct (scan_events events e t s) as [[logged s1] o1]. cbn in F.
  destruct logged; cbn [negb]; [exact F|].
  unfold same_light, same_solar, same_wifi, same_porch in *.
  unfold keepSSLWarm, porchLightHeartbeat.
  repeat break_if; cbn; intuition congruence.
Qed.

Lemma porch_timeout_frame e t s :
  let s' := fst (porch_timeout e t s) in
  same_light s s' /\ same_solar s s' /\ same_wifi s s' /\
  forall p, deref p s' = deref p s.
Proof.
  unfold porch_timeout.
  destruct (_ && _); [apply porch_off_frame|].
  unfold same_light, same_solar, same_wifi. cbn. intuition.
Qed.

(** ** The stairway light *)

Lemma is_dark_same_solar e s s' :
  same_solar s s' -> is_dark e s' = is_dark e s.
Proof.
  unfold same_solar, is_dark, isItDark. intros (Hr & Hs & Hu).
  rewrite Hu.
  repeat break_if; cbn; rewrite ?Hr, ?Hs; reflexivity.
Qed.

Lemma on_sensor_light e t sensor s :
  let s' := fst (on_sensor e t sensor s) in
  let d := negb (sensor =? 0) && is_dark (env_dark e) s in
  pLight s' = pLight s || d /\
  body_time s' = (if d then t else body_time s).
Proof.
  cbn zeta. unfold on_sensor.
  destruct (sensor =? 0); cbn [negb andb];
    [rewrite orb_false_r; split; reflexivity|].
  set (s2 := if bit 2 sensor then _ else _).
  assert (L2 : pLight s2 = pLight s /\ body_time s2 = body_time s /\
               same_solar s s2).
  { subst s2. unfold same_solar. frame. }
  destruct L2 as (Lp & Lb & Ls).
  rewrite <- (is_dark_same_solar (env_dark e) s s2 Ls). unfold is_dark.
  pose proof (isItDark_frame (env_dark e) s2) as F.
  destruct (isItDark (env_dark e) s2) as [[dark s3] o3].
  cbn in F |- *. destruct F as ((Fp & Fb & _) & _).
  destruct dark.
  - cbn [pLight set_body_time]. rewrite Fp, Lp.
    destruct (pLight s) eqn:Ep; cbn [negb orb].
    + pose proof (porch_on_frame (env_on e) (set_body_time t s3)) as P.
      destruct P as ((Pp & Pb & _) & _).
      repeat break_if; cbn [fst] in *; rewrite ?Pp, ?Pb; cbn; rewrite ?Fp;
        (split; [exact Lp | reflexivity]).
    + cbn. split; reflexivity.
  - cbn. rewrite Fp, Fb, Lp, Lb, orb_false_r. split; reflexivity.
Qed.

Lemma light_timeout_light t s :
  let s' := light_timeout t s in
  pLight s' = pLight s && (u32 (t - body_time s) <? light_length) /\
  body_time s' = body_time s /\
  low_detect_time s' = low_detect_time s /\
  up_detect_time s' = up_detect_time s /\
  same_solar s s' /\ same_wifi s s' /\ same_porch s s'.
Proof.
  cbn zeta. unfold light_timeout, same_solar, same_wifi, same_porch.
  rewrite (Z.ltb_antisym light_length).
  destruct (pLight s) eqn:Ep; cbn [andb];
    [destruct (light_length <=? _)|]; cbn; rewrite ?Ep; repeat split;
    reflexivity.
Qed.

(** The states between the blocks of one pass of [loop]. *)
Lemma loop_stages e s :
  exists r s1 o1 s2 o2 s4 o4 s5 o5,
    wifi_check (env_wifi e) s = (r, s1, o1) /\
    on_sensor e (millis (clock e))
      (find_body (pulse_lower e) (pulse_upper e)) s1 = (s2, o2) /\
    porch_timeout e (millis (clock e)) (light_timeout (millis (clock e)) s2)
      = (s4, o4) /\
    drain_log e (millis (clock e)) s4 = (s5, o5) /\
    loop e s = (s5, o1 ++ o2 ++ o4 ++ o5).
Proof.
  unfold loop. cbv zeta.
  destruct (wifi_check (env_wifi e) s) as [[r s1] o1] eqn:Hw.
  destruct (on_sensor _ _ _ s1) as [s2 o2] eqn:Hs.
  destruct (porch_timeout _ _ _) as [s4 o4] eqn:Hp.
  destruct (drain_log _ _ s4) as [s5 o5] eqn:Hd.
  exists r, s1, o1, s2, o2, s4, o4, s5, o5.
  repeat split; assumption || reflexivity.
Qed.

(** C1, as the sketch has it.  At the end of a pass at time [t] the stairway
    light is on exactly when it was on at the start of the pass or a sensor
    saw a body in the dark during the pass, and [t - body_time] (unsigned,
    32 bits) is below [light_length]; [body_time] is the time of the latest
    pass in which a sensor saw a body while [isItDark] held.  The test runs
    in every pass. *)
Theorem stair_light_hold (e : Env) (s : State) :
  let s' := fst (loop e s) in
  let t := millis (clock e) in
  let d := detected_in_dark e s in
  body_time s' = (if d then t else body_time s) /\
  (pLight s' = true <->
   (pLight s = true \/ d = true) /\ u32 (t - body_time s') < light_length).
Proof.
  cbn zeta.
  destruct (loop_stages e s)
    as (r & s1 & o1 & s2 & o2 & s4 & o4 & s5 & o5 & Hw & Hs & Hp & Hd & ->).
  cbn [fst].
  pose proof (wifi_check_frame (env_wifi e) s) as W; rewrite Hw in W.
  cbn in W. destruct W as ((Wp & Wb & _) & Wsol & _).
  pose proof (on_sensor_light e (millis (clock e))
                (find_body (pulse_lower e) (pulse_upper e)) s1) as S.
  rewrite Hs in S. cbn [fst] in S.
  rewrite (is_dark_same_solar _ _ _ Wsol), Wp, Wb in S.
  fold (detected_in_dark e s) in S. destruct S as (Sp & Sb).
  pose proof (light_timeout_light (millis (clock e)) s2) as T.
  cbn zeta in T. destruct T as (Tp & Tb & _).
  pose proof (porch_timeout_frame e (millis (clock e))
                (light_timeout (millis (clock e)) s2)) as P.
  rewrite Hp in P. cbn in P. destruct P as ((Pp & Pb & _) & _).
  pose proof (drain_log_frame e (millis (clock e)) s4) as D.
  rewrite Hd in D. cbn in D. destruct D as ((Dp & Db & _) & _).
  rewrite Dp, Db, Pp, Pb, Tp, Tb, Sp, Sb.
  split; [reflexivity|].
  rewrite andb_true_iff, orb_true_iff, Z.ltb_lt. reflexivity.
Qed.

(** C1 fails as stated: at noon the lower sensor sees a body at time 5000;
    the time since the latest detection is 0, below [light_length], and the
    light is off at the end of the pass.  Nor does [body_time] decide alone:
    in a pass at 5000 with nobody on the stairs [the_time - body_time] is
    5000, below [light_length], and the light is off. *)
Lemma stair_light_day_counterexample :
  let e := pass 5000 1000 0 12 (switch_up 5000 EmptyString) (off_up 5000) in
  let idle := pass 5000 0 0 22 (switch_up 5000 EmptyString) (off_up 5000) in
  last_detection [e] = Some 5000 /\
  ~ (pLight (fst (run [e] boot)) = true <->
     u32 (millis (clock e) - 5000) < light_length) /\
  ~ (pLight (fst (run [idle] boot)) = true <->
     u32 (millis (clock idle) - body_time (fst (run [idle] boot)))
       < light_length).
Proof.
  cbn zeta. split; [reflexivity|].
  assert (L : pLight (fst (run [pass 5000 1000 0 12
                 (switch_up 5000 EmptyString) (off_up 5000)] boot)) = false)
    by (vm_compute; reflexivity).
  assert (L' : pLight (fst (run [pass 5000 0 0 22
                 (switch_up 5000 EmptyString) (off_up 5000)] boot)) = false)
    by (vm_compute; reflexivity).
  split; intros [_ H].
  - rewrite L in H. discriminate H. vm_compute. reflexivity.
  - rewrite L' in H. discriminate H. vm_compute. reflexivity.
Qed.

(** ** Commands to the porch switch *)

Lemma count_app p (a b : list Event) : count p (a ++ b) = count p a + count p b.
Proof. unfold count. rewrite filter_app, length_app. lia. Qed.

Lemma count_nonneg p (tr : list Event) : 0 <= count p tr.
Proof. unfold count. lia. Qed.

Lemma porch_on_on_commands e s :
  porch_on_commands (snd (porch_on e s)) = if switch_ready e then 1 else 0.
Proof.
  unfold porch_on, switch_ready.
  destruct (on_wifi e), (on_connect1 e),
    (indexOf (on_resp e) relay_on_marker =? -1), (on_connect2 e);
    vm_compute; reflexivity.
Qed.

Lemma porch_on_off_commands e s : porch_off_commands (snd (porch_on e s)) = 0.
Proof.
  unfold porch_on.
  destruct (on_wifi e), (on_connect1 e),
    (indexOf (on_resp e) relay_on_marker =? -1), (on_connect2 e);
    vm_compute; reflexivity.
Qed.

Lemma porch_off_on_commands e s : porch_on_commands (snd (porch_off e s)) = 0.
Proof.
  unfold porch_off. destruct (off_wifi e), (off_connect e);
    vm_compute; reflexivity.
Qed.

Lemma wifi_check_no_kasa e s m : count (is_kasa m) (snd (wifi_check e s)) = 0.
Proof. unfold wifi_check. repeat break_if; reflexivity. Qed.

Lemma isItDark_no_kasa e s m : count (is_kasa m) (snd (isItDark e s)) = 0.
Proof.
  unfold isItDark. destruct (_ <? 1735689600); [reflexivity|].
  destruct (3600000 <? _); reflexivity.
Qed.

Lemma form_log_no_kasa e txt s m :
  count (is_kasa m) (snd (form_log e txt s)) = 0.
Proof. unfold form_log. repeat break_if; reflexivity. Qed.

Lemma scan_events_no_kasa evs e t s m :
  count (is_kasa m) (snd (scan_events evs e t s)) = 0.
Proof.
  induction evs as [|ev rest IH]; cbn [scan_events]; [reflexivity|].
  destruct (0 <? deref (timestamp ev) s); [|exact IH].
  pose proof (form_log_no_kasa (env_log e)
    (format_event (msg ev) (u32 (t - deref (timestamp ev) s) / 1000)) s m) as F.
  destruct (form_log _ _ s) as [[r s1] o1]. exact F.
Qed.

Lemma drain_log_no_relay_command e t s :
  porch_on_commands (snd (drain_log e t s)) = 0 /\
  porch_off_commands (snd (drain_log e t s)) = 0.
Proof.
  unfold drain_log, porch_on_commands, porch_off_commands.
  destruct (quiet t s); [|split; reflexivity].
  pose proof (scan_events_no_kasa events e t s) as F.
  destruct (scan_events events e t s) as [[logged s1] o1]. cbn [snd] in F.
  destruct logged; cbn [negb]; [split; apply F|].
  unfold keepSSLWarm, porchLightHeartbeat.
  repeat break_if; split; vm_compute; reflexivity.
Qed.

Lemma porch_timeout_on_commands e t s :
  porch_on_commands (snd (porch_timeout e t s)) = 0.
Proof.
  unfold porch_timeout. destruct (_ && _);
    [apply porch_off_on_commands | reflexivity].
Qed.

Lemma on_sensor_on_commands e t sensor s :
  let low := if bit 1 sensor then t else low_detect_time s in
  porch_on_commands (snd (on_sensor e t sensor s)) =
  if negb (sensor =? 0) && is_dark (env_dark e) s && pLight s && bit 2 sensor
     && in_window (u32 (t - low)) && switch_ready (env_on e)
  then 1 else 0.
Proof.
  cbn zeta. unfold on_sensor.
  destruct (sensor =? 0); cbn [negb andb]; [reflexivity|].
  set (s2 := if bit 2 sensor then _ else _).
  assert (L2 : pLight s2 = pLight s /\
               low_detect_time s2
                 = (if bit 1 sensor then t else low_detect_time s) /\
               same_solar s s2).
  { subst s2. unfold same_solar. frame. }
  destruct L2 as (Lp & Ll & Ls).
  rewrite <- (is_dark_same_solar (env_dark e) s s2 Ls). unfold is_dark.
  pose proof (isItDark_frame (env_dark e) s2) as F.
  pose proof (isItDark_no_kasa (env_dark e) s2 cmd_on) as K.
  destruct (isItDark (env_dark e) s2) as [[dark s3] o3].
  cbv zeta in F. cbn [fst snd] in F, K |- *.
  destruct F as ((Fp & _ & Fl & _) & _).
  fold (porch_on_commands o3) in K.
  destruct dark; cbn [andb]; [|exact K].
  cbn [pLight low_detect_time set_body_time]. rewrite Fp, Lp, Fl, Ll.
  destruct (pLight s); cbn [negb andb]; [|exact K].
  unfold in_window.
  destruct (bit 2 sensor); cbn [andb]; [|exact K].
  destruct (_ && _); cbn [andb]; [|exact K].
  pose proof (porch_on_on_commands (env_on e) (set_body_time t s3)) as P.
  destruct (porch_on _ _) as [s5 o5]. cbn [snd] in P |- *.
  unfold porch_on_commands in *. rewrite count_app, K, P. reflexivity.
Qed.

(** The number of porch-on commands of one pass. *)
Lemma loop_on_commands e s :
  porch_on_commands (snd (loop e s)) =
  if porch_attempt e s && switch_ready (env_on e) then 1 else 0.
Proof.
  destruct (loop_stages e s)
    as (r & s1 & o1 & s2 & o2 & s4 & o4 & s5 & o5 & Hw & Hs & Hp & Hd & ->).
  cbn [snd]. unfold porch_on_commands. rewrite !count_app.
  pose proof (wifi_check_no_kasa (env_wifi e) s cmd_on) as W.
  rewrite Hw in W. cbn [snd] in W. rewrite W.
  pose proof (porch_timeout_on_commands e (millis (clock e))
                (light_timeout (millis (clock e)) s2)) as P.
  rewrite Hp in P. cbn [snd] in P. unfold porch_on_commands in P. rewrite P.
  pose proof (drain_log_no_relay_command e (millis (clock e)) s4) as [D _].
  rewrite Hd in D. cbn [snd] in D. unfold porch_on_commands in D. rewrite D.
  pose proof (on_sensor_on_commands e (millis (clock e))
                (find_body (pulse_lower e) (pulse_upper e)) s1) as S.
  rewrite Hs in S. cbn [snd] in S. unfold porch_on_commands in S. rewrite S.
  pose proof (wifi_check_frame (env_wifi e) s) as F; rewrite Hw in F.
  cbn in F. destruct F as ((Fp & _ & Fl & _) & Fsol & _).
  rewrite (is_dark_same_solar _ _ _ Fsol), Fp, Fl.
  unfold porch_attempt, detected_in_dark.
  rewrite !Z.add_0_l, !Z.add_0_r. reflexivity.
Qed.

Lemma on_sensor_low e t sensor s :
  low_detect_time (fst (on_sensor e t sensor s))
  = if bit 1 sensor then t else low_detect_time s.
Proof.
  unfold on_sensor, isItDark, porch_on.
  destruct (Z.eqb_spec sensor 0) as [->|_]; [reflexivity|].
  destruct (bit 1 sensor);
    repeat break_if; cbn;
    repeat match goal with
           | H : (_, _) = (_, _) |- _ => inversion H; subst; clear H
           end; reflexivity.
Qed.

(** The time of the latest lower detection after one pass. *)
Lemma loop_low e s :
  low_detect_time (fst (loop e s))
  = if bit 1 (find_body (pulse_lower e) (pulse_upper e))
    then millis (clock e) else low_detect_time s.
Proof.
  destruct (loop_stages e s)
    as (r & s1 & o1 & s2 & o2 & s4 & o4 & s5 & o5 & Hw & Hs & Hp & Hd & ->).
  cbn [fst].
  pose proof (wifi_check_frame (env_wifi e) s) as W; rewrite Hw in W.
  cbv zeta in W. cbn [fst snd] in W. destruct W as ((_ & _ & W & _) & _).
  pose proof (on_sensor_low e (millis (clock e))
                (find_body (pulse_lower e) (pulse_upper e)) s1) as S.
  rewrite Hs in S. cbn [fst] in S.
  pose proof (light_timeout_light (millis (clock e)) s2) as T.
  cbv zeta in T. destruct T as (_ & _ & T & _).
  pose proof (porch_timeout_frame e (millis (clock e))
                (light_timeout (millis (clock e)) s2)) as P.
  rewrite Hp in P. cbv zeta in P. cbn [fst] in P.
  destruct P as ((_ & _ & P & _) & _).
  pose proof (drain_log_frame e (millis (clock e)) s4) as D.
  rewrite Hd in D. cbv zeta in D. cbn [fst] in D.
  destruct D as ((_ & _ & D & _) & _).
  rewrite D, P, T, S, W. reflexivity.
Qed.

Lemma run_cons e rest s :
  run (e :: rest) s =
  (fst (run rest (fst (loop e s))),
   snd (loop e s) ++ snd (run rest (fst (loop e s)))).
Proof.
  cbn [run]. destruct (loop e s) as [s1 o1]. cbn [fst snd].
  now destruct (run rest s1).
Qed.

Lemma run_low es :
  Forall (fun e => bit 1 (find_body (pulse_lower e) (pulse_upper e)) = false)
    es ->
  forall s, low_detect_time (fst (run es s)) = low_detect_time s.
Proof.
  induction 1 as [|e rest He _ IH]; intros s; [reflexivity|].
  rewrite run_cons. cbn [fst]. rewrite IH, loop_low, He. reflexivity.
Qed.

Lemma switch_ready_spec e :
  switch_ready e = true <->
  on_wifi e = true /\ on_connect1 e = true /\
  indexOf (on_resp e) relay_on_marker = -1 /\ on_connect2 e = true.
Proof.
  unfold switch_ready. rewrite !andb_true_iff, Z.eqb_eq. tauto.
Qed.

(** C2, as the sketch has it.  The lower sensor sees a body in a pass at
    [t0]; no later pass sees one at the lower sensor; then, with the
    stairway light on, a pass [g] ms after [t0] ([g] an unsigned 32-bit
    difference) in which only the upper sensor sees a body, in the dark,
    sends exactly one porch-on command when [4000 < g < 40000] (both bounds
    strict) and [porch_on] goes through to its command (radio associated,
    both connections accepted, [indexOf] not finding the relay-on marker in
    the reply); in every other case it sends none. *)
Theorem porch_on_window (e0 : Env) (mid : list Env) (e : Env) (s : State) :
  let s1 := fst (run mid (fst (loop e0 s))) in
  let g := u32 (millis (clock e) - millis (clock e0)) in
  let n := porch_on_commands (snd (loop e s1)) in
  let through :=
    on_wifi (env_on e) = true /\ on_connect1 (env_on e) = true /\
    indexOf (on_resp (env_on e)) relay_on_marker = -1 /\
    on_connect2 (env_on e) = true in
  bit 1 (find_body (pulse_lower e0) (pulse_upper e0)) = true ->
  Forall (fun e' => bit 1 (find_body (pulse_lower e') (pulse_upper e')) = false)
    mid ->
  pLight s1 = true ->
  find_body (pulse_lower e) (pulse_upper e) = 2 ->
  is_dark (env_dark e) s1 = true ->
  (n = 1 <-> 4000 < g < 40000 /\ through) /\
  (n = 0 <-> ~ (4000 < g < 40000 /\ through)).
Proof.
  cbn zeta. intros H0 Hmid Hl Hf Hd.
  rewrite <- switch_ready_spec.
  rewrite loop_on_commands. unfold porch_attempt, detected_in_dark.
  rewrite Hf, Hd, Hl.
  change (bit 1 2) with false. change (bit 2 2) with true.
  change (negb (2 =? 0)) with true. cbn [andb].
  rewrite (run_low mid Hmid), loop_low, H0.
  unfold in_window.
  destruct (u32 (millis (clock e) - millis (clock e0)) <? 40000) eqn:E1;
  destruct (4000 <? u32 (millis (clock e) - millis (clock e0))) eqn:E2;
  destruct (switch_ready (env_on e)); cbn [andb];
  rewrite ?Z.ltb_lt, ?Z.ltb_ge in *;
  (split; split; intros; try discriminate; try lia; try tauto;
   try (repeat split; lia)).
Qed.

Lemma porch_on_window_witness :
  let e0 := pass 1000 1000 0 22 (switch_down 1000) (off_up 1000) in
  let mid := [pass 3000 0 0 22 (switch_down 3000) (off_up 3000)] in
  let e := pass 11000 0 1000 22 (switch_up 11000 EmptyString) (off_up 11000) in
  let s1 := fst (run mid (fst (loop e0 boot))) in
  bit 1 (find_body (pulse_lower e0) (pulse_upper e0)) = true /\
  Forall (fun e' => bit 1 (find_body (pulse_lower e') (pulse_upper e')) = false)
    mid /\
  pLight s1 = true /\
  find_body (pulse_lower e) (pulse_upper e) = 2 /\
  is_dark (env_dark e) s1 = true /\
  porch_on_commands (snd (loop e s1)) = 1.
Proof.
  cbn zeta.
  set (e0 := pass 1000 1000 0 22 (switch_down 1000) (off_up 1000)).
  set (mid := [pass 3000 0 0 22 (switch_down 3000) (off_up 3000)]).
  set (e := pass 11000 0 1000 22 (switch_up 11000 EmptyString) (off_up 11000)).
  assert (H0 : bit 1 (find_body (pulse_lower e0) (pulse_upper e0)) = true)
    by (vm_compute; reflexivity).
  assert (Hm : Forall (fun e' => bit 1 (find_body (pulse_lower e')
                                          (pulse_upper e')) = false) mid)
    by (repeat constructor).
  assert (H1 : pLight (fst (run mid (fst (loop e0 boot)))) = true)
    by (vm_compute; reflexivity).
  assert (H2 : find_body (pulse_lower e) (pulse_upper e) = 2)
    by (vm_compute; reflexivity).
  assert (H3 : is_dark (env_dark e) (fst (run mid (fst (loop e0 boot)))) = true)
    by (vm_compute; reflexivity).
  split; [exact H0 | split; [exact Hm | split; [exact H1 |
    split; [exact H2 | split; [exact H3|]]]]].
  apply (proj2 (proj1 (porch_on_window e0 mid e boot H0 Hm H1 H2 H3))).
  vm_compute. repeat split; reflexivity.
Defined.

(** C2 fails as stated at the lower bound: the lower sensor fires at 1000
    and turns the light on, the upper sensor fires at 5000, a gap of exactly
    4000 ms, the switch is reachable and reports nothing, and no porch-on
    command is sent. *)
Lemma porch_on_window_counterexample :
  let s := fst (loop (pass 1000 1000 0 22 (switch_down 1000) (off_up 1000))
                  boot) in
  let e := pass 5000 0 1000 22 (switch_up 5000 EmptyString) (off_up 5000) in
  pLight s = true /\ low_detect_time s = 1000 /\
  find_body (pulse_lower e) (pulse_upper e) = 2 /\
  is_dark (env_dark e) s = true /\
  switch_ready (env_on e) = true /\
  4000 <= millis (clock e) - low_detect_time s <= 40000 /\
  porch_on_commands (snd (loop e s)) = 0.
Proof. vm_compute. repeat split; reflexivity || (intros; discriminate). Qed.

Lemma marker_skips e s :
  indexOf (on_resp (env_on e)) relay_on_marker <> -1 ->
  porch_on_commands (snd (loop e s)) = 0.
Proof.
  intros H. rewrite loop_on_commands.
  unfold switch_ready. apply Z.eqb_neq in H. rewrite H.
  now rewrite andb_false_r, !andb_false_l, andb_false_r.
Qed.

Lemma wire_message_opaque json text :
  indexOf (wire_message json) text = -1 \/ text = EmptyString.
Proof.
  destruct text as [|a text]; [right; reflexivity|left].
  unfold indexOf, wire_message, string_of_bytes. cbn zeta.
  cbn [app map string_of_list_ascii].
  change (ascii_of_N (Z.to_N 0)) with zero.
  cbn [String.length Nat.eqb c_prefix Ascii.eqb Bool.eqb zero]. reflexivity.
Qed.

(** C3 at the input where the sketch breaks it.  [porch_on] does try to
    skip the command: it sends none when [indexOf] finds the relay-on marker
    in the reply to its query, and no pass sends more than one.  But the
    reply of the switch comes in the wire protocol, two zero bytes, the
    length and the obfuscated text, and [porch_on] searches it as it was
    read: [indexOf] stops at the first zero byte, so it finds the marker in
    no message of the protocol, although the decoded reply holds it.  One
    walk up the stairs, the lower sensor at 1000, the upper sensor at 6000
    and again at 6100: the switch answers the first query with its relay off
    and the second with its relay on, and two porch-on commands are sent. *)
Theorem porch_on_repeated_in_transit :
  let relay_off := wire_message (sysinfo "0") in
  let relay_on := wire_message (sysinfo "1") in
  let es := [lower_pass 1000; upper_pass 6000 relay_off;
             upper_pass 6100 relay_on] in
  (forall e s,
      indexOf (on_resp (env_on e)) relay_on_marker <> -1 ->
      porch_on_commands (snd (loop e s)) = 0) /\
  (forall e s, porch_on_commands (snd (loop e s)) <= 1) /\
  indexOf (sysinfo "1") relay_on_marker <> -1 /\
  string_of_bytes (deobfuscate 171 (skipn 4 (bytes_of_string relay_on)))
  = sysinfo "1" /\
  (forall json, indexOf (wire_message json) relay_on_marker = -1) /\
  porch_on_commands (snd (run [lower_pass 1000; upper_pass 6000 relay_off] boot))
  = 1 /\
  porch_on_commands
    (snd (loop (upper_pass 6100 relay_on)
            (fst (run [lower_pass 1000; upper_pass 6000 relay_off] boot))))
  = 1 /\
  porch_on_commands (snd (run es boot)) = 2.
Proof.
  cbn zeta.
  split; [exact marker_skips|].
  split; [intros e s; rewrite loop_on_commands; destruct (_ && _); lia|].
  split; [vm_compute; discriminate|].
  split; [vm_compute; reflexivity|].
  split.
  { intros json.
    destruct (wire_message_opaque json relay_on_marker) as [H|H];
      [exact H | discriminate H]. }
  split; [vm_compute; reflexivity|].
  split; vm_compute; reflexivity.
Qed.

(** ** Failed connections to the porch switch *)

Lemma porch_on_connects e s :
  on_wifi e = true -> In (Connect (on_connect1 e)) (snd (porch_on e s)).
Proof.
  unfold porch_on. intros ->. cbn [negb].
  destruct (on_connect1 e); [|left; reflexivity].
  repeat break_if; left; reflexivity.
Qed.

Lemma on_sensor_calls_porch_on e t sensor s :
  let low := if bit 1 sensor then t else low_detect_time s in
  negb (sensor =? 0) && is_dark (env_dark e) s && pLight s && bit 2 sensor
    && in_window (u32 (t - low)) = true ->
  exists o3 s4, snd (on_sensor e t sensor s) = o3 ++ snd (porch_on (env_on e) s4).
Proof.
  cbn zeta. unfold on_sensor.
  destruct (sensor =? 0); cbn [negb andb]; [discriminate|].
  set (s2 := if bit 2 sensor then _ else _).
  assert (L2 : pLight s2 = pLight s /\
               low_detect_time s2
                 = (if bit 1 sensor then t else low_detect_time s) /\
               same_solar s s2).
  { subst s2. unfold same_solar. frame. }
  destruct L2 as (Lp & Ll & Ls).
  rewrite <- (is_dark_same_solar (env_dark e) s s2 Ls). unfold is_dark.
  pose proof (isItDark_frame (env_dark e) s2) as F.
  destruct (isItDark (env_dark e) s2) as [[dark s3] o3].
  cbv zeta in F. cbn [fst snd] in F |- *.
  destruct F as ((Fp & _ & Fl & _) & _).
  destruct dark; cbn [andb]; [|discriminate].
  cbn [pLight low_detect_time set_body_time]. rewrite Fp, Lp, Fl, Ll.
  destruct (pLight s); cbn [negb andb]; [|discriminate].
  unfold in_window.
  destruct (bit 2 sensor); cbn [andb]; [|discriminate].
  destruct (_ && _); cbn [andb]; [|discriminate].
  intros _. exists o3, (set_body_time t s3).
  destruct (porch_on _ _) as [s5 o5]. reflexivity.
Qed.

Lemma loop_calls_porch_on e s :
  porch_attempt e s = true -> on_wifi (env_on e) = true ->
  In (Connect (on_connect1 (env_on e))) (snd (loop e s)).
Proof.
  intros A W.
  destruct (loop_stages e s)
    as (r & s1 & o1 & s2 & o2 & s4 & o4 & s5 & o5 & Hw & Hs & Hp & Hd & ->).
  cbn [snd]. apply in_or_app; right. apply in_or_app; left.
  pose proof (wifi_check_frame (env_wifi e) s) as F; rewrite Hw in F.
  cbn in F. destruct F as ((Fp & _ & Fl & _) & Fsol & _).
  destruct (on_sensor_calls_porch_on e (millis (clock e))
              (find_body (pulse_lower e) (pulse_upper e)) s1) as (o3 & s' & E).
  { rewrite (is_dark_same_solar _ _ _ Fsol), Fp, Fl. exact A. }
  rewrite Hs in E. cbn [snd] in E. rewrite E.
  apply in_or_app; right. apply porch_on_connects. exact W.
Qed.

(** C4, as the sketch has it.  A connection that fails in [porch_on] only
    writes the log slot [logTimeKasaFail]; no cooldown is kept, and every
    later pass that satisfies the porch-on condition with the radio
    associated opens a connection again, however soon it comes.  Only
    [porch_off] backs off: when its connection fails, the auto-off deadline
    moves to [millis() + 60000]. *)
Theorem switch_failure_no_cooldown (e : PorchOnEnv) (s : State) :
  on_wifi e = true -> on_connect1 e = false ->
  porch_on e s =
    (assign SlotKasaFail (stamp (on_clock_a e) (on_clock_b e)) s,
     [Connect false]) /\
  (forall e' s', porch_attempt e' s' = true -> on_wifi (env_on e') = true ->
     In (Connect (on_connect1 (env_on e'))) (snd (loop e' s'))) /\
  (forall o, off_wifi o = true -> off_connect o = false ->
     porch_off o s =
       (set_porch_auto_off_time (u32 (millis (off_clock o) + 60000)) s,
        [Connect false])).
Proof.
  intros W C. split; [|split].
  - unfold porch_on. rewrite W, C. reflexivity.
  - intros e' s'. apply loop_calls_porch_on.
  - intros o Wo Co. unfold porch_off. rewrite Wo, Co. reflexivity.
Qed.

Lemma switch_failure_no_cooldown_witness :
  let e := switch_down 6000 in
  let s := fst (loop (lower_pass 1000) boot) in
  on_wifi e = true /\ on_connect1 e = false /\
  porch_on e s = (assign SlotKasaFail 6000 s, [Connect false]).
Proof.
  cbn zeta.
  split; [reflexivity | split; [reflexivity|]].
  exact (proj1 (switch_failure_no_cooldown (switch_down 6000)
                  (fst (loop (lower_pass 1000) boot))
                  eq_refl eq_refl)).
Defined.

(** C4 fails as stated: the connection of [porch_on] fails in the pass at
    6000; the next pass, 100 ms later, opens a connection again. *)
Lemma switch_failure_counterexample :
  let e2 := pass 6000 0 1000 22 (switch_down 6000) (off_up 6000) in
  let e3 := pass 6100 0 1000 22 (switch_down 6100) (off_up 6100) in
  let s2 := fst (run [lower_pass 1000; e2] boot) in
  snd (loop e2 (fst (loop (lower_pass 1000) boot))) = [Connect false] /\
  logTimeKasaFail s2 = 6000 /\
  millis (clock e3) - logTimeKasaFail s2 = 100 /\
  snd (loop e3 s2) = [Connect false].
Proof. vm_compute. repeat split; reflexivity. Qed.

(** ** Wi-Fi reconnection *)

Lemma wifi_check_attempt e s :
  snd (wifi_check e s) = (if wifi_attempt e s then [WiFiBegin] else []) /\
  last_wifi_try (snd (fst (wifi_check e s)))
    = (if wifi_attempt e s then millis (wf_clock_b e) else last_wifi_try s).
Proof.
  unfold wifi_check, wifi_attempt.
  destruct (wf_status e); cbn [negb andb].
  - destruct (negb (was_connected s)); split; reflexivity.
  - cbn [last_wifi_try set_wifi_statics].
    rewrite (Z.leb_antisym _ wifi_try_time).
    destruct (_ <? wifi_try_time); split; reflexivity.
Qed.

Lemma porch_on_no_begin e s : count is_wifi_begin (snd (porch_on e s)) = 0.
Proof. unfold porch_on. repeat break_if; reflexivity. Qed.

Lemma isItDark_no_begin e s : count is_wifi_begin (snd (isItDark e s)) = 0.
Proof.
  unfold isItDark. destruct (_ <? 1735689600); [reflexivity|].
  destruct (3600000 <? _); reflexivity.
Qed.

Lemma on_sensor_wifi e t sensor s :
  same_wifi s (fst (on_sensor e t sensor s)) /\
  count is_wifi_begin (snd (on_sensor e t sensor s)) = 0.
Proof.
  unfold on_sensor.
  destruct (sensor =? 0); [split; [split|]; reflexivity|].
  set (s2 := if bit 2 sensor then _ else _).
  assert (L2 : same_wifi s s2) by (subst s2; unfold same_wifi; frame).
  pose proof (isItDark_frame (env_dark e) s2) as F.
  pose proof (isItDark_no_begin (env_dark e) s2) as K.
  destruct (isItDark (env_dark e) s2) as [[dark s3] o3].
  cbv zeta in F. cbn [fst snd] in F, K.
  destruct F as (_ & F & _).
  assert (L3 : same_wifi s s3)
    by (unfold same_wifi in *; intuition congruence).
  destruct dark; [|split; assumption].
  destruct (negb _); [split; [exact L3 | exact K]|].
  destruct (_ && _); [|split; [exact L3 | exact K]].
  pose proof (porch_on_frame (env_on e) (set_body_time t s3)) as P.
  pose proof (porch_on_no_begin (env_on e) (set_body_time t s3)) as Q.
  destruct (porch_on _ _) as [s5 o5]. cbv zeta in P. cbn [fst snd] in P, Q |- *.
  destruct P as (_ & _ & P).
  split; [|rewrite count_app; lia].
  unfold same_wifi in *. cbn in P. intuition congruence.
Qed.

Lemma porch_timeout_no_begin e t s :
  count is_wifi_begin (snd (porch_timeout e t s)) = 0.
Proof. unfold porch_timeout, porch_off. repeat break_if; reflexivity. Qed.

Lemma scan_events_no_begin evs e t s :
  count is_wifi_begin (snd (scan_events evs e t s)) = 0.
Proof.
  induction evs as [|ev rest IH]; cbn [scan_events]; [reflexivity|].
  destruct (0 <? deref (timestamp ev) s); [|exact IH].
  unfold form_log. repeat break_if; reflexivity.
Qed.

Lemma drain_log_no_begin e t s :
  count is_wifi_begin (snd (drain_log e t s)) = 0.
Proof.
  unfold drain_log. destruct (quiet t s); [|reflexivity].
  pose proof (scan_events_no_begin events e t s) as F.
  destruct (scan_events events e t s) as [[logged s1] o1]. cbn [snd] in F.
  destruct logged; cbn [negb]; [exact F|].
  unfold keepSSLWarm, porchLightHeartbeat. repeat break_if; reflexivity.
Qed.

(** One pass of [loop] seen from [wifi_check]. *)
Lemma loop_wifi e s :
  count is_wifi_begin (snd (loop e s))
    = (if wifi_attempt (env_wifi e) s then 1 else 0) /\
  last_wifi_try (fst (loop e s))
    = (if wifi_attempt (env_wifi e) s then millis (wf_clock_b (env_wifi e))
       else last_wifi_try s).
Proof.
  destruct (loop_stages e s)
    as (r & s1 & o1 & s2 & o2 & s4 & o4 & s5 & o5 & Hw & Hs & Hp & Hd & ->).
  cbn [fst snd]. rewrite !count_app.
  pose proof (wifi_check_attempt (env_wifi e) s) as [W1 W2].
  rewrite Hw in W1, W2. cbn [fst snd] in W1, W2.
  pose proof (on_sensor_wifi e (millis (clock e))
                (find_body (pulse_lower e) (pulse_upper e)) s1) as [S1 S2].
  rewrite Hs in S1, S2. cbn [fst snd] in S1, S2.
  pose proof (light_timeout_light (millis (clock e)) s2) as T.
  cbv zeta in T. destruct T as (_ & _ & _ & _ & _ & T & _).
  pose proof (porch_timeout_frame e (millis (clock e))
                (light_timeout (millis (clock e)) s2)) as P.
  pose proof (porch_timeout_no_begin e (millis (clock e))
                (light_timeout (millis (clock e)) s2)) as P2.
  rewrite Hp in P, P2. cbv zeta in P. cbn [fst snd] in P, P2.
  destruct P as (_ & _ & P & _).
  pose proof (drain_log_frame e (millis (clock e)) s4) as D.
  pose proof (drain_log_no_begin e (millis (clock e)) s4) as D2.
  rewrite Hd in D, D2. cbv zeta in D. cbn [fst snd] in D, D2.
  destruct D as (_ & _ & D & _).
  rewrite S2, P2, D2, W1.
  unfold same_wifi in *.
  split; [destruct (wifi_attempt _ _); reflexivity|].
  rewrite <- W2. intuition congruence.
Qed.

Lemma run_no_attempt es :
  forall s, count is_wifi_begin (snd (run es s)) = 0 ->
            last_wifi_try (fst (run es s)) = last_wifi_try s.
Proof.
  induction es as [|e rest IH]; intros s H; [reflexivity|].
  rewrite run_cons in H |- *. cbn [fst snd] in H |- *.
  rewrite count_app in H.
  pose proof (loop_wifi e s) as [L1 L2].
  pose proof (count_nonneg is_wifi_begin (snd (run rest (fst (loop e s))))).
  destruct (wifi_attempt (env_wifi e) s); [lia|].
  rewrite IH by lia. exact L2.
Qed.

Lemma u32_sub_millis a b : u32 (millis a - millis b) = u32 (a - b).
Proof. unfold millis, u32. now rewrite <- Zminus_mod. Qed.

(** C5.  [WiFi.begin] is called in a pass only if the radio is not
    associated and at least [wifi_try_time] ms (unsigned 32-bit difference)
    have passed since the time recorded at the previous call.  So between
    two successive calls, with any number of passes without a call in
    between, the clock read that allows the second call is at least
    [wifi_try_time] after the time recorded at the first; on a clock that
    does not run backwards that is a real distance of at least 60000 ms. *)
Theorem wifi_retry_spacing (e1 : Env) (mid : list Env) (e2 : Env) (s : State) :
  let s1 := fst (loop e1 s) in
  let s2 := fst (run mid s1) in
  let recorded := wf_clock_b (env_wifi e1) in
  let checked := wf_clock_a (env_wifi e2) in
  count is_wifi_begin (snd (loop e1 s)) = 1 ->
  count is_wifi_begin (snd (run mid s1)) = 0 ->
  count is_wifi_begin (snd (loop e2 s2)) = 1 ->
  wf_status (env_wifi e2) = false /\
  last_wifi_try s2 = millis recorded /\
  wifi_try_time <= u32 (millis checked - millis recorded) /\
  (recorded <= checked -> wifi_try_time <= checked - recorded) /\
  (forall e0 s0,
     count is_wifi_begin (snd (loop e0 s0)) = 1 ->
     wf_status (env_wifi e0) = false /\
     wifi_try_time
       <= u32 (millis (wf_clock_a (env_wifi e0)) - last_wifi_try s0)).
Proof.
  cbn zeta. intros H1 Hm H2.
  assert (Each : forall e0 s0,
     count is_wifi_begin (snd (loop e0 s0)) = 1 ->
     wf_status (env_wifi e0) = false /\
     wifi_try_time
       <= u32 (millis (wf_clock_a (env_wifi e0)) - last_wifi_try s0)).
  { intros e0 s0 H0. pose proof (loop_wifi e0 s0) as [A0 _].
    rewrite H0 in A0.
    destruct (wifi_attempt (env_wifi e0) s0) eqn:E0; [|discriminate].
    unfold wifi_attempt in E0. apply andb_true_iff in E0 as [St Sp].
    apply Z.leb_le in Sp. apply negb_true_iff in St. split; assumption. }
  refine ((fun P => conj (proj1 P) (conj (proj1 (proj2 P))
            (conj (proj1 (proj2 (proj2 P)))
               (conj (proj2 (proj2 (proj2 P))) Each)))) _).
  pose proof (loop_wifi e1 s) as [A1 B1].
  pose proof (loop_wifi e2 (fst (run mid (fst (loop e1 s))))) as [A2 _].
  rewrite H1 in A1. rewrite H2 in A2.
  destruct (wifi_attempt (env_wifi e1) s); [|discriminate].
  destruct (wifi_attempt _ _) eqn:E2 in A2; [|discriminate].
  unfold wifi_attempt in E2. apply andb_true_iff in E2 as [St Sp].
  rewrite (run_no_attempt mid _ Hm), B1 in Sp.
  apply Z.leb_le in Sp. apply negb_true_iff in St.
  split; [exact St|].
  split; [rewrite (run_no_attempt mid _ Hm); exact B1|].
  split; [exact Sp|].
  intros Mono. rewrite u32_sub_millis in Sp. unfold u32 in Sp.
  unfold wifi_try_time in *.
  destruct (Z_lt_le_dec (wf_clock_a (env_wifi e2) - wf_clock_b (env_wifi e1))
              60000) as [Lt|Ge]; [|exact Ge].
  rewrite Z.mod_small in Sp by lia. lia.
Qed.

Lemma wifi_retry_spacing_witness :
  let e1 := offline_pass 60000 in
  let mid := [offline_pass 60100; offline_pass 119900] in
  let e2 := offline_pass 120000 in
  count is_wifi_begin (snd (loop e1 boot)) = 1 /\
  count is_wifi_begin (snd (run mid (fst (loop e1 boot)))) = 0 /\
  count is_wifi_begin
    (snd (loop e2 (fst (run mid (fst (loop e1 boot)))))) = 1 /\
  wifi_try_time <= wf_clock_a (env_wifi e2) - wf_clock_b (env_wifi e1).
Proof.
  cbn zeta.
  assert (H1 : count is_wifi_begin (snd (loop (offline_pass 60000) boot)) = 1)
    by (vm_compute; reflexivity).
  assert (Hm : count is_wifi_begin
                 (snd (run [offline_pass 60100; offline_pass 119900]
                         (fst (loop (offline_pass 60000) boot)))) = 0)
    by (vm_compute; reflexivity).
  assert (H2 : count is_wifi_begin
                 (snd (loop (offline_pass 120000)
                         (fst (run [offline_pass 60100; offline_pass 119900]
                                 (fst (loop (offline_pass 60000) boot))))))
               = 1)
    by (vm_compute; reflexivity).
  split; [exact H1 | split; [exact Hm | split; [exact H2|]]].
  apply (wifi_retry_spacing _ _ _ _ H1 Hm H2).
  vm_compute. discriminate.
Defined.

(** ** The porch auto-off deadline *)

Lemma porch_on_deadline e s :
  porch_auto_off_time (fst (porch_on e s)) =
  if switch_ready e
  then u32 (millis (on_clock_deadline e) + porch_duration)
  else porch_auto_off_time s.
Proof.
  unfold porch_on, switch_ready.
  destruct (on_wifi e), (on_connect1 e),
    (indexOf (on_resp e) relay_on_marker =? -1), (on_connect2 e);
    reflexivity.
Qed.

Lemma on_sensor_deadline e t sensor s :
  porch_auto_off_time (fst (on_sensor e t sensor s)) <> 0 ->
  porch_auto_off_time s <> 0 \/
  porch_on_commands (snd (on_sensor e t sensor s)) = 1.
Proof.
  pose proof (on_sensor_on_commands e t sensor s) as C. cbv zeta in C.
  destruct (_ && switch_ready (env_on e)); [right; exact C|].
  intros H. left. intros Z0. apply H. clear H.
  revert C. unfold on_sensor.
  destruct (sensor =? 0); [intros _; exact Z0|].
  set (s2 := if bit 2 sensor then _ else _).
  assert (L2 : same_porch s s2) by (subst s2; unfold same_porch; frame).
  pose proof (isItDark_frame (env_dark e) s2) as F.
  pose proof (isItDark_no_kasa (env_dark e) s2 cmd_on) as K.
  destruct (isItDark (env_dark e) s2) as [[dark s3] o3].
  cbv zeta in F. cbn [fst snd] in F, K.
  destruct F as (_ & _ & F). unfold same_porch in *.
  assert (L3 : porch_auto_off_time s3 = 0) by congruence.
  destruct dark; [|intros _; exact L3].
  destruct (negb _); [intros _; exact L3|].
  destruct (_ && _); [|intros _; exact L3].
  pose proof (porch_on_deadline (env_on e) (set_body_time t s3)) as D.
  pose proof (porch_on_on_commands (env_on e) (set_body_time t s3)) as P.
  destruct (porch_on _ _) as [s5 o5]. cbn [fst snd] in D, P |- *.
  unfold porch_on_commands in *. rewrite count_app, K, P.
  destruct (switch_ready (env_on e)); [discriminate|].
  intros _. rewrite D. exact L3.
Qed.

Lemma porch_timeout_deadline e t s :
  porch_auto_off_time (fst (porch_timeout e t s)) <> 0 ->
  porch_auto_off_time s <> 0.
Proof.
  unfold porch_timeout.
  destruct (negb (porch_auto_off_time s =? 0)) eqn:E; cbn [andb].
  - intros _. apply negb_true_iff, Z.eqb_neq in E. exact E.
  - intros H. exact H.
Qed.

Lemma loop_deadline e s :
  porch_auto_off_time (fst (loop e s)) <> 0 ->
  porch_auto_off_time s <> 0 \/ porch_on_commands (snd (loop e s)) = 1.
Proof.
  destruct (loop_stages e s)
    as (r & s1 & o1 & s2 & o2 & s4 & o4 & s5 & o5 & Hw & Hs & Hp & Hd & ->).
  cbn [fst snd]. intros H.
  pose proof (drain_log_frame e (millis (clock e)) s4) as D.
  rewrite Hd in D. cbv zeta in D. cbn [fst] in D.
  destruct D as (_ & _ & _ & D). unfold same_porch in D. rewrite D in H.
  pose proof (porch_timeout_deadline e (millis (clock e))
                (light_timeout (millis (clock e)) s2)) as P.
  rewrite Hp in P. cbn [fst] in P. specialize (P H).
  pose proof (light_timeout_light (millis (clock e)) s2) as T.
  cbv zeta in T. destruct T as (_ & _ & _ & _ & _ & _ & T).
  unfold same_porch in T. rewrite T in P.
  pose proof (on_sensor_deadline e (millis (clock e))
                (find_body (pulse_lower e) (pulse_upper e)) s1) as S.
  rewrite Hs in S. cbn [fst snd] in S. specialize (S P).
  pose proof (wifi_check_frame (env_wifi e) s) as W; rewrite Hw in W.
  cbv zeta in W. cbn [fst snd] in W. destruct W as (_ & _ & W).
  unfold same_porch in W. rewrite W in S.
  destruct S as [S|S]; [left; exact S|right].
  pose proof (loop_on_commands e s) as L.
  destruct (loop_stages e s)
    as (r' & s1' & o1' & s2' & o2' & s4' & o4' & s5' & o5'
        & Hw' & Hs' & Hp' & Hd' & E).
  rewrite Hw in Hw'. inversion Hw'; subst.
  rewrite Hs in Hs'. inversion Hs'; subst.
  rewrite Hp in Hp'. inversion Hp'; subst.
  rewrite Hd in Hd'. inversion Hd'; subst.
  rewrite E in L. cbn [snd] in L.
  unfold porch_on_commands in *. rewrite !count_app in L |- *.
  pose proof (count_nonneg (is_kasa cmd_on) o1').
  pose proof (count_nonneg (is_kasa cmd_on) o4').
  pose proof (count_nonneg (is_kasa cmd_on) o5').
  destruct (_ && _) in L; lia.
Qed.

Lemma run_deadline es :
  forall s, porch_auto_off_time (fst (run es s)) <> 0 ->
            porch_auto_off_time s <> 0 \/
            1 <= porch_on_commands (snd (run es s)).
Proof.
  induction es as [|e rest IH]; intros s H; [left; exact H|].
  rewrite run_cons in H |- *. cbn [fst snd] in H |- *.
  unfold porch_on_commands in *. rewrite count_app.
  pose proof (count_nonneg (is_kasa cmd_on) (snd (loop e s))).
  pose proof (count_nonneg (is_kasa cmd_on)
                (snd (run rest (fst (loop e s))))).
  destruct (IH _ H) as [D|D]; [|right; lia].
  destruct (loop_deadline e s D) as [D'|D']; [left; exact D'|right].
  unfold porch_on_commands in D'. lia.
Qed.

Lemma isItDark_cache e s :
  snd (isItDark e s) = (if recomputes e s then [Almanac] else []) /\
  snd (fst (isItDark e s))
    = (if recomputes e s
       then set_solar (s16 (dk_sunrise e)) (s16 (dk_sunset e))
              (millis (dk_clock e)) s
       else s).
Proof.
  unfold isItDark, recomputes. rewrite (Z.leb_antisym _ 1735689600).
  destruct (_ <? 1735689600); cbn [negb andb]; [split; reflexivity|].
  destruct (3600000 <? _); split; reflexivity.
Qed.

Lemma on_sensor_out e t sensor s :
  exists o3 o5,
    snd (on_sensor e t sensor s) = o3 ++ o5 /\
    (o3 = [] \/ o3 = [Almanac]) /\
    (o5 = [] \/ exists s4, o5 = snd (porch_on (env_on e) s4)).
Proof.
  unfold on_sensor.
  destruct (sensor =? 0); [exists [], []; auto|].
  set (s2 := if bit 2 sensor then _ else _).
  pose proof (isItDark_cache (env_dark e) s2) as [C _].
  destruct (isItDark (env_dark e) s2) as [[dark s3] o3]. cbn [snd] in C.
  assert (A : o3 = [] \/ o3 = [Almanac])
    by (rewrite C; destruct (recomputes _ _); auto).
  assert (N : exists o5, o3 = o3 ++ o5 /\ (o3 = [] \/ o3 = [Almanac]) /\
             (o5 = [] \/ exists s4, o5 = snd (porch_on (env_on e) s4)))
    by (exists []; rewrite app_nil_r; auto).
  destruct dark; [|exists o3; exact N].
  destruct (negb _); [exists o3; exact N|].
  destruct (_ && _); [|exists o3; exact N].
  exists o3, (snd (porch_on (env_on e) (set_body_time t s3))).
  destruct (porch_on _ _) as [s5 o5] eqn:E. cbn [snd].
  split; [reflexivity|]. split; [exact A|].
  right. exists (set_body_time t s3). now rewrite E.
Qed.

Lemma on_sensor_off_commands e t sensor s :
  porch_off_commands (snd (on_sensor e t sensor s)) = 0.
Proof.
  destruct (on_sensor_out e t sensor s) as (o3 & o5 & -> & A & B).
  unfold porch_off_commands. rewrite count_app.
  assert (A0 : count (is_kasa cmd_off) o3 = 0)
    by (destruct A as [-> | ->]; reflexivity).
  assert (B0 : count (is_kasa cmd_off) o5 = 0).
  { destruct B as [-> | (s' & ->)]; [reflexivity|].
    apply porch_on_off_commands. }
  lia.
Qed.

Lemma on_sensor_keeps_deadline e t sensor s :
  porch_on_commands (snd (on_sensor e t sensor s)) = 0 ->
  porch_auto_off_time (fst (on_sensor e t sensor s)) = porch_auto_off_time s.
Proof.
  unfold on_sensor.
  destruct (sensor =? 0); [intros _; reflexivity|].
  set (s2 := if bit 2 sensor then _ else _).
  assert (L2 : same_porch s s2) by (subst s2; unfold same_porch; frame).
  pose proof (isItDark_frame (env_dark e) s2) as F.
  pose proof (isItDark_no_kasa (env_dark e) s2 cmd_on) as K.
  destruct (isItDark (env_dark e) s2) as [[dark s3] o3].
  cbv zeta in F. cbn [fst snd] in F, K.
  destruct F as (_ & _ & F). unfold same_porch in *.
  assert (L3 : porch_auto_off_time s3 = porch_auto_off_time s) by congruence.
  destruct dark; [|intros _; exact L3].
  destruct (negb _); [intros _; exact L3|].
  destruct (_ && _); [|intros _; exact L3].
  pose proof (porch_on_deadline (env_on e) (set_body_time t s3)) as D.
  pose proof (porch_on_on_commands (env_on e) (set_body_time t s3)) as P.
  destruct (porch_on _ _) as [s5 o5]. cbn [fst snd] in D, P |- *.
  unfold porch_on_commands in *. rewrite count_app, K, P.
  destruct (switch_ready (env_on e)); [discriminate|].
  intros _. rewrite D. exact L3.
Qed.

Lemma porch_timeout_off_commands e t s :
  porch_off_commands (snd (porch_timeout e t s)) =
  if deadline_due t s && off_wifi (env_off e) && off_connect (env_off e)
  then 1 else 0.
Proof.
  unfold porch_timeout. fold (deadline_due t s).
  destruct (deadline_due t s); cbn [andb]; [|reflexivity].
  unfold porch_off.
  destruct (off_wifi (env_off e)), (off_connect (env_off e));
    vm_compute; reflexivity.
Qed.

(** The number of porch-off commands of a pass that sends no porch-on
    command. *)
Lemma loop_off_commands e s :
  porch_on_commands (snd (loop e s)) = 0 ->
  porch_off_commands (snd (loop e s)) =
  if deadline_due (millis (clock e)) s
     && off_wifi (env_off e) && off_connect (env_off e)
  then 1 else 0.
Proof.
  destruct (loop_stages e s)
    as (r & s1 & o1 & s2 & o2 & s4 & o4 & s5 & o5 & Hw & Hs & Hp & Hd & ->).
  cbn [snd]. unfold porch_on_commands, porch_off_commands.
  rewrite !count_app. intros H.
  pose proof (count_nonneg (is_kasa cmd_on) o1).
  pose proof (count_nonneg (is_kasa cmd_on) o2).
  pose proof (count_nonneg (is_kasa cmd_on) o4).
  pose proof (count_nonneg (is_kasa cmd_on) o5).
  pose proof (wifi_check_no_kasa (env_wifi e) s cmd_off) as W.
  rewrite Hw in W. cbn [snd] in W. rewrite W.
  pose proof (wifi_check_frame (env_wifi e) s) as F; rewrite Hw in F.
  cbv zeta in F. cbn [fst snd] in F. destruct F as (_ & _ & F).
  pose proof (on_sensor_off_commands e (millis (clock e))
                (find_body (pulse_lower e) (pulse_upper e)) s1) as S.
  pose proof (on_sensor_keeps_deadline e (millis (clock e))
                (find_body (pulse_lower e) (pulse_upper e)) s1) as S'.
  rewrite Hs in S, S'. cbn [fst snd] in S, S'.
  unfold porch_off_commands, porch_on_commands in S, S'. rewrite S.
  specialize (S' ltac:(lia)).
  pose proof (light_timeout_light (millis (clock e)) s2) as T.
  cbv zeta in T. destruct T as (_ & _ & _ & _ & _ & _ & T).
  pose proof (porch_timeout_off_commands e (millis (clock e))
                (light_timeout (millis (clock e)) s2)) as P.
  rewrite Hp in P. cbn [snd] in P. unfold porch_off_commands in P. rewrite P.
  pose proof (drain_log_no_relay_command e (millis (clock e)) s4) as [_ D].
  rewrite Hd in D. cbn [snd] in D. unfold porch_off_commands in D. rewrite D.
  unfold same_porch in *. unfold deadline_due. rewrite T, S', F.
  rewrite !Z.add_0_l, Z.add_0_r. reflexivity.
Qed.

Lemma last_relay_from_app acc a b :
  last_relay_from acc (a ++ b) = last_relay_from (last_relay_from acc a) b.
Proof. unfold last_relay_from. apply fold_left_app. Qed.

Lemma count_cons p (a : Event) tr :
  count p (a :: tr) = (if p a then 1 else 0) + count p tr.
Proof.
  unfold count. cbn [filter]. destruct (p a); cbn [List.length]; lia.
Qed.

Lemma last_relay_quiet tr :
  forall acc,
    porch_on_commands tr = 0 -> porch_off_commands tr = 0 ->
    last_relay_from acc tr = acc.
Proof.
  unfold porch_on_commands, porch_off_commands.
  induction tr as [|a tr IH]; intros acc; [reflexivity|].
  rewrite !count_cons. intros Hon Hoff.
  pose proof (count_nonneg (is_kasa cmd_on) tr).
  pose proof (count_nonneg (is_kasa cmd_off) tr).
  unfold last_relay_from in *. cbn [fold_left]. unfold relay_step at 2.
  destruct (is_kasa cmd_on a); [lia|].
  destruct (is_kasa cmd_off a); [lia|].
  apply IH; lia.
Qed.

Lemma last_relay_stays_on tr :
  porch_off_commands tr = 0 -> last_relay_from (Some true) tr = Some true.
Proof.
  unfold porch_off_commands.
  induction tr as [|a tr IH]; [reflexivity|].
  rewrite count_cons. intros Hoff.
  pose proof (count_nonneg (is_kasa cmd_off) tr).
  unfold last_relay_from in *. cbn [fold_left]. unfold relay_step at 2.
  destruct (is_kasa cmd_off a); [lia|].
  destruct (is_kasa cmd_on a); apply IH; lia.
Qed.

Lemma last_relay_on tr :
  forall acc,
    1 <= porch_on_commands tr -> porch_off_commands tr = 0 ->
    last_relay_from acc tr = Some true.
Proof.
  unfold porch_on_commands, porch_off_commands.
  induction tr as [|a tr IH]; intros acc; [cbn; lia|].
  rewrite !count_cons. intros Hon Hoff.
  pose proof (count_nonneg (is_kasa cmd_off) tr).
  unfold last_relay_from in *. cbn [fold_left]. unfold relay_step at 2.
  destruct (is_kasa cmd_off a); [lia|].
  destruct (is_kasa cmd_on a).
  - apply last_relay_stays_on. unfold porch_off_commands. lia.
  - apply IH; lia.
Qed.

Lemma on_sensor_sets_deadline e t sensor s :
  porch_on_commands (snd (on_sensor e t sensor s)) = 1 ->
  porch_auto_off_time (fst (on_sensor e t sensor s))
  = u32 (millis (on_clock_deadline (env_on e)) + porch_duration).
Proof.
  unfold on_sensor.
  destruct (sensor =? 0); [intros H; discriminate H|].
  set (s2 := if bit 2 sensor then _ else _).
  pose proof (isItDark_no_kasa (env_dark e) s2 cmd_on) as K.
  destruct (isItDark (env_dark e) s2) as [[dark s3] o3].
  cbn [fst snd] in K. unfold porch_on_commands.
  destruct dark; [|cbn [snd]; rewrite K; discriminate].
  destruct (negb _); [cbn [snd]; rewrite K; discriminate|].
  destruct (_ && _); [|cbn [snd]; rewrite K; discriminate].
  pose proof (porch_on_deadline (env_on e) (set_body_time t s3)) as D.
  pose proof (porch_on_on_commands (env_on e) (set_body_time t s3)) as P.
  destruct (porch_on _ _) as [s5 o5]. cbn [fst snd] in D, P |- *.
  unfold porch_on_commands in *. rewrite count_app, K, P.
  destruct (switch_ready (env_on e)); [|discriminate].
  intros _. exact D.
Qed.

(** What [on_sensor] does to the deadline and to the relay command sent
    last. *)
Lemma on_sensor_relay e t sensor s acc :
  u32 (millis (on_clock_deadline (env_on e)) + porch_duration) <> 0 ->
  (porch_auto_off_time s <> 0 <-> acc = Some true) ->
  (porch_auto_off_time (fst (on_sensor e t sensor s)) <> 0 <->
   last_relay_from acc (snd (on_sensor e t sensor s)) = Some true).
Proof.
  intros N I.
  pose proof (on_sensor_on_commands e t sensor s) as C. cbv zeta in C.
  pose proof (on_sensor_off_commands e t sensor s) as F.
  destruct (_ && switch_ready (env_on e)).
  - rewrite (on_sensor_sets_deadline e t sensor s C).
    rewrite (last_relay_on _ acc) by (rewrite ?C, ?F; lia || reflexivity).
    split; [reflexivity | intros _; exact N].
  - rewrite (on_sensor_keeps_deadline e t sensor s C).
    rewrite (last_relay_quiet _ acc C F). exact I.
Qed.

Lemma porch_timeout_relay e t s acc :
  u32 (millis (off_clock (env_off e)) + 60000) <> 0 ->
  u32 (millis (off_clock (env_off e)) + 10000) <> 0 ->
  (porch_auto_off_time s <> 0 <-> acc = Some true) ->
  (porch_auto_off_time (fst (porch_timeout e t s)) <> 0 <->
   last_relay_from acc (snd (porch_timeout e t s)) = Some true).
Proof.
  intros N6 N1 I. unfold porch_timeout.
  destruct (negb (porch_auto_off_time s =? 0)) eqn:E; cbn [andb];
    [|exact I].
  destruct (0 <=? _); [|exact I].
  apply negb_true_iff, Z.eqb_neq in E.
  assert (A : acc = Some true) by (apply I; exact E). subst acc.
  unfold porch_off.
  destruct (off_wifi (env_off e)); cbn [negb fst snd].
  - destruct (off_connect (env_off e)); cbn [fst snd].
    + split; [intros H; exfalso; apply H; reflexivity|].
      intros H. vm_compute in H. discriminate H.
    + split; [reflexivity | intros _; exact N6].
  - split; [reflexivity | intros _; exact N1].
Qed.

(** After a pass the deadline is set exactly when the relay command sent
    last was porch-on, if it was so before the pass. *)
Lemma loop_relay e s acc :
  deadlines_nonzero e ->
  (porch_auto_off_time s <> 0 <-> acc = Some true) ->
  (porch_auto_off_time (fst (loop e s)) <> 0 <->
   last_relay_from acc (snd (loop e s)) = Some true).
Proof.
  intros (N3 & N6 & N1) I.
  destruct (loop_stages e s)
    as (r & s1 & o1 & s2 & o2 & s4 & o4 & s5 & o5 & Hw & Hs & Hp & Hd & ->).
  cbn [fst snd]. rewrite !last_relay_from_app.
  pose proof (wifi_check_frame (env_wifi e) s) as W; rewrite Hw in W.
  cbv zeta in W. cbn [fst snd] in W. destruct W as (_ & _ & W).
  pose proof (wifi_check_no_kasa (env_wifi e) s cmd_on) as W1.
  pose proof (wifi_check_no_kasa (env_wifi e) s cmd_off) as W0.
  rewrite Hw in W1, W0. cbn [snd] in W1, W0.
  rewrite (last_relay_quiet o1 acc W1 W0).
  unfold same_porch in W. rewrite <- W in I.
  pose proof (on_sensor_relay e (millis (clock e))
                (find_body (pulse_lower e) (pulse_upper e)) s1 acc N3 I) as S.
  rewrite Hs in S. cbn [fst snd] in S.
  pose proof (light_timeout_light (millis (clock e)) s2) as T.
  cbv zeta in T. destruct T as (_ & _ & _ & _ & _ & _ & T).
  unfold same_porch in T. rewrite <- T in S.
  pose proof (porch_timeout_relay e (millis (clock e))
                (light_timeout (millis (clock e)) s2) _ N6 N1 S) as P.
  rewrite Hp in P. cbn [fst snd] in P.
  pose proof (drain_log_frame e (millis (clock e)) s4) as D.
  rewrite Hd in D. cbv zeta in D. cbn [fst] in D.
  destruct D as (_ & _ & _ & D). unfold same_porch in D.
  pose proof (drain_log_no_relay_command e (millis (clock e)) s4) as [D1 D0].
  rewrite Hd in D1, D0. cbn [snd] in D1, D0.
  rewrite (last_relay_quiet o5 _ D1 D0), D. exact P.
Qed.

Lemma run_relay es :
  Forall deadlines_nonzero es ->
  forall s acc,
    (porch_auto_off_time s <> 0 <-> acc = Some true) ->
    (porch_auto_off_time (fst (run es s)) <> 0 <->
     last_relay_from acc (snd (run es s)) = Some true).
Proof.
  induction 1 as [|e rest He _ IH]; intros s acc I; [exact I|].
  rewrite run_cons. cbn [fst snd]. rewrite last_relay_from_app.
  apply IH. apply loop_relay; assumption.
Qed.

Lemma setup_deadline boot_env : porch_auto_off_time (fst (setup boot_env)) = 0.
Proof.
  unfold setup.
  pose proof (form_log_frame boot_env "SYSTEM BOOT V3.0" initial) as F.
  destruct (form_log _ _ initial) as [[r s1] o1].
  cbv zeta in F. cbn [fst snd] in F |- *.
  destruct F as (_ & _ & _ & F & _). unfold same_porch in F.
  rewrite F. reflexivity.
Qed.

(** C6, as the sketch has it.  In every pass in which the deadline is set
    and due, [porch_off] runs: with the radio associated and the connection
    accepted it sends one porch-off command and clears the deadline; with
    the connection refused it sends no command and sets the deadline to
    [millis() + 60000]; with the radio down it opens no connection and sets
    the deadline to [millis() + 10000].  When the deadline is not due nothing
    happens.  A pass of [loop] that sends no porch-on command therefore
    sends one porch-off command when the deadline it starts with is due and
    the switch is reached, and none otherwise.  After any run of the loop
    that follows [setup] the deadline is set only if a porch-on command was
    sent during the run.  In the other direction, [porch_on] stores the
    deadline [millis() + porch_duration] whenever it sends the porch-on
    command, and the deadline stays set until a porch-off command is sent:
    when none of the stored deadlines is the value 0, a pass that sends a
    porch-on command and no porch-off command ends with the deadline set,
    and after any run that follows [setup] the deadline is set exactly when
    the relay command sent last was porch-on. *)
Theorem porch_auto_off_due (e : Env) (s : State) :
  let t := millis (clock e) in
  let o := env_off e in
  let s' := fst (porch_timeout e t s) in
  let out := snd (porch_timeout e t s) in
  (deadline_due t s = false -> s' = s /\ out = []) /\
  (deadline_due t s = true -> off_wifi o = true -> off_connect o = true ->
     porch_off_commands out = 1 /\ porch_auto_off_time s' = 0) /\
  (deadline_due t s = true -> off_wifi o = true -> off_connect o = false ->
     out = [Connect false] /\
     porch_auto_off_time s' = u32 (millis (off_clock o) + 60000)) /\
  (deadline_due t s = true -> off_wifi o = false ->
     out = [] /\
     porch_auto_off_time s' = u32 (millis (off_clock o) + 10000)) /\
  (porch_on_commands (snd (loop e s)) = 0 ->
     porch_off_commands (snd (loop e s)) =
     if deadline_due t s && off_wifi o && off_connect o then 1 else 0) /\
  (forall boot_env es,
     porch_auto_off_time (fst (run es (fst (setup boot_env)))) <> 0 ->
     1 <= porch_on_commands (snd (run es (fst (setup boot_env))))) /\
  (forall po s0,
     porch_on_commands (snd (porch_on po s0)) = 1 ->
     porch_auto_off_time (fst (porch_on po s0))
     = u32 (millis (on_clock_deadline po) + porch_duration)) /\
  (deadlines_nonzero e ->
   porch_on_commands (snd (loop e s)) = 1 ->
   porch_off_commands (snd (loop e s)) = 0 ->
   porch_auto_off_time (fst (loop e s)) <> 0) /\
  (forall boot_env es,
     Forall deadlines_nonzero es ->
     (porch_auto_off_time (fst (run es (fst (setup boot_env)))) <> 0 <->
      last_relay (snd (run es (fst (setup boot_env)))) = Some true)).
Proof.
  cbn zeta. unfold porch_timeout. fold (deadline_due (millis (clock e)) s).
  split; [|split; [|split; [|split; [|split; [apply loop_off_commands|]]]]].
  - intros D. rewrite D. split; reflexivity.
  - intros D W C. rewrite D. unfold porch_off. rewrite W, C.
    split; [vm_compute|]; reflexivity.
  - intros D W C. rewrite D. unfold porch_off. rewrite W, C.
    split; reflexivity.
  - intros D W. rewrite D. unfold porch_off. rewrite W.
    split; reflexivity.
  - split; [|split; [|split]].
    + intros boot_env es H.
      destruct (run_deadline es _ H) as [D|D]; [|exact D].
      exfalso. apply D. apply setup_deadline.
    + intros po s0 H. rewrite porch_on_deadline.
      rewrite porch_on_on_commands in H.
      destruct (switch_ready po); [reflexivity | discriminate H].
    + intros N Hon Hoff.
      set (acc := if porch_auto_off_time s =? 0 then None else Some true).
      assert (I : porch_auto_off_time s <> 0 <-> acc = Some true).
      { subst acc. destruct (Z.eqb_spec (porch_auto_off_time s) 0) as [E|E].
        - split; [intros H; contradiction | intros H; discriminate H].
        - split; [reflexivity | intros _; exact E]. }
      apply (loop_relay e s acc N I).
      apply last_relay_on; [rewrite Hon; lia | exact Hoff].
    + intros boot_env es N. unfold last_relay.
      apply run_relay; [exact N|].
      rewrite setup_deadline.
      split; [intros H; contradiction | intros H; discriminate H].
Qed.

(** C6 fails as stated: a walk up the stairs turns the porch light on at
    6000 and sets the deadline to 306000.  In the pass at 306000 the radio is
    down: the deadline is due, no porch-off command is sent, no connection
    is opened, and the deadline moves to 316000.  In the pass at 316000 the
    command is sent and the deadline is cleared: it is absent although the
    controller has sent a porch-on command.  The deadline was set exactly as long as
    the relay command sent last was porch-on. *)
Lemma porch_auto_off_due_counterexample :
  let s := fst (run [lower_pass 1000; upper_pass 6000 EmptyString] boot) in
  let e := offline_pass 306000 in
  let e' := pass 316000 0 0 22 (switch_up 316000 EmptyString)
              (off_up 316000) in
  porch_auto_off_time s = 306000 /\
  deadline_due (millis (clock e)) s = true /\
  porch_off_commands (snd (loop e s)) = 0 /\
  count is_connect (snd (loop e s)) = 0 /\
  porch_auto_off_time (fst (loop e s)) = 316000 /\
  porch_off_commands (snd (loop e' (fst (loop e s)))) = 1 /\
  porch_auto_off_time (fst (loop e' (fst (loop e s)))) = 0 /\
  porch_on_commands
    (snd (run [lower_pass 1000; upper_pass 6000 EmptyString; e; e'] boot)) = 1 /\
  Forall deadlines_nonzero
    [lower_pass 1000; upper_pass 6000 EmptyString; e; e'] /\
  last_relay (snd (run [lower_pass 1000; upper_pass 6000 EmptyString] boot))
  = Some true /\
  last_relay
    (snd (run [lower_pass 1000; upper_pass 6000 EmptyString; e; e'] boot))
  = Some false.
Proof.
  cbn zeta.
  assert (N : forall t, 0 <= t < 4294000000 ->
                deadlines_nonzero (offline_pass t) /\
                deadlines_nonzero (lower_pass t) /\
                forall resp, deadlines_nonzero (upper_pass t resp)).
  { intros t Ht. unfold deadlines_nonzero, offline_pass, lower_pass,
      upper_pass, pass, switch_up, switch_down, off_up, porch_duration.
    cbn [env_on env_off on_clock_deadline off_clock].
    unfold millis, u32. rewrite !(Z.mod_small t) by lia.
    rewrite !Z.mod_small by lia. repeat split; lia. }
  split; [vm_compute; reflexivity|].
  split; [vm_compute; reflexivity|].
  split; [vm_compute; reflexivity|].
  split; [vm_compute; reflexivity|].
  split; [vm_compute; reflexivity|].
  split; [vm_compute; reflexivity|].
  split; [vm_compute; reflexivity|].
  split; [vm_compute; reflexivity|].
  split; [|split; vm_compute; reflexivity].
  constructor; [apply (N 1000); lia|].
  constructor; [apply (N 6000); lia|].
  constructor; [apply (N 306000); lia|].
  constructor; [|constructor].
  apply (proj2 (proj2 (N 316000 ltac:(lia))) EmptyString).
Qed.

(** ** Day and night *)

Lemma currentMin_plain e :
  0 <= dk_hours e < 24 -> 0 <= dk_minutes e < 60 ->
  currentMin e = dk_hours e * 60 + dk_minutes e.
Proof.
  intros Hh Hm. unfold currentMin, s16.
  rewrite (Z.mod_small (dk_hours e * 60 + 32768)) by lia.
  rewrite Z.mod_small by lia. lia.
Qed.

Lemma s16_plain z : -32768 <= z < 32768 -> s16 z = z.
Proof. intros H. unfold s16. rewrite Z.mod_small by lia. lia. Qed.

Lemma recomputes_same_solar e s s' :
  same_solar s s' -> recomputes e s' = recomputes e s.
Proof. unfold same_solar, recomputes. intros (_ & _ & ->). reflexivity. Qed.

Lemma porch_on_no_almanac e s : count is_almanac (snd (porch_on e s)) = 0.
Proof. unfold porch_on. repeat break_if; reflexivity. Qed.

Lemma on_sensor_solar e t sensor s :
  count is_almanac (snd (on_sensor e t sensor s))
    = (if negb (sensor =? 0) && recomputes (env_dark e) s then 1 else 0) /\
  lastSunUpdate (fst (on_sensor e t sensor s))
    = (if negb (sensor =? 0) && recomputes (env_dark e) s
       then millis (dk_clock (env_dark e)) else lastSunUpdate s).
Proof.
  unfold on_sensor.
  destruct (sensor =? 0); cbn [negb andb]; [split; reflexivity|].
  set (s2 := if bit 2 sensor then _ else _).
  assert (L2 : same_solar s s2) by (subst s2; unfold same_solar; frame).
  rewrite <- (recomputes_same_solar (env_dark e) s s2 L2).
  destruct L2 as (_ & _ & L2). rewrite <- L2.
  pose proof (isItDark_cache (env_dark e) s2) as [C1 C2].
  destruct (isItDark (env_dark e) s2) as [[dark s3] o3].
  cbn [fst snd] in C1, C2.
  assert (A : count is_almanac o3
              = (if recomputes (env_dark e) s2 then 1 else 0))
    by (rewrite C1; destruct (recomputes (env_dark e) s2); reflexivity).
  assert (B : lastSunUpdate s3
              = (if recomputes (env_dark e) s2
                 then millis (dk_clock (env_dark e)) else lastSunUpdate s2))
    by (rewrite C2; destruct (recomputes (env_dark e) s2); reflexivity).
  clear C1 C2.
  destruct dark; [|split; assumption].
  destruct (negb _); [split; assumption|].
  destruct (_ && _); [|split; assumption].
  pose proof (porch_on_frame (env_on e) (set_body_time t s3)) as P.
  pose proof (porch_on_no_almanac (env_on e) (set_body_time t s3)) as Q.
  destruct (porch_on _ _) as [s5 o5]. cbv zeta in P. cbn [fst snd] in P, Q |- *.
  destruct P as (_ & (_ & _ & P) & _). cbn in P.
  rewrite count_app, Q, P, Z.add_0_r. split; assumption.
Qed.

Lemma wifi_check_no_almanac e s : count is_almanac (snd (wifi_check e s)) = 0.
Proof. unfold wifi_check. repeat break_if; reflexivity. Qed.

Lemma porch_timeout_no_almanac e t s :
  count is_almanac (snd (porch_timeout e t s)) = 0.
Proof. unfold porch_timeout, porch_off. repeat break_if; reflexivity. Qed.

Lemma scan_events_no_almanac evs e t s :
  count is_almanac (snd (scan_events evs e t s)) = 0.
Proof.
  induction evs as [|ev rest IH]; cbn [scan_events]; [reflexivity|].
  destruct (0 <? deref (timestamp ev) s); [|exact IH].
  unfold form_log. repeat break_if; reflexivity.
Qed.

Lemma drain_log_no_almanac e t s :
  count is_almanac (snd (drain_log e t s)) = 0.
Proof.
  unfold drain_log. destruct (quiet t s); [|reflexivity].
  pose proof (scan_events_no_almanac events e t s) as F.
  destruct (scan_events events e t s) as [[logged s1] o1]. cbn [snd] in F.
  destruct logged; cbn [negb]; [exact F|].
  unfold keepSSLWarm, porchLightHeartbeat. repeat break_if; reflexivity.
Qed.

Lemma loop_solar e s :
  count is_almanac (snd (loop e s))
    = (if pass_recomputes e s then 1 else 0) /\
  lastSunUpdate (fst (loop e s))
    = (if pass_recomputes e s then millis (dk_clock (env_dark e))
       else lastSunUpdate s).
Proof.
  destruct (loop_stages e s)
    as (r & s1 & o1 & s2 & o2 & s4 & o4 & s5 & o5 & Hw & Hs & Hp & Hd & ->).
  cbn [fst snd]. rewrite !count_app.
  pose proof (wifi_check_frame (env_wifi e) s) as W.
  pose proof (wifi_check_no_almanac (env_wifi e) s) as W2.
  rewrite Hw in W, W2. cbv zeta in W. cbn [fst snd] in W, W2.
  destruct W as (_ & W & _).
  pose proof (on_sensor_solar e (millis (clock e))
                (find_body (pulse_lower e) (pulse_upper e)) s1) as [S1 S2].
  rewrite Hs in S1, S2. cbn [fst snd] in S1, S2.
  rewrite (recomputes_same_solar _ _ _ W) in S1, S2.
  destruct W as (_ & _ & W). rewrite W in S2.
  pose proof (light_timeout_light (millis (clock e)) s2) as T.
  cbv zeta in T. destruct T as (_ & _ & _ & _ & (_ & _ & T) & _).
  pose proof (porch_timeout_frame e (millis (clock e))
                (light_timeout (millis (clock e)) s2)) as P.
  pose proof (porch_timeout_no_almanac e (millis (clock e))
                (light_timeout (millis (clock e)) s2)) as P2.
  rewrite Hp in P, P2. cbv zeta in P. cbn [fst snd] in P, P2.
  destruct P as (_ & (_ & _ & P) & _).
  pose proof (drain_log_frame e (millis (clock e)) s4) as D.
  pose proof (drain_log_no_almanac e (millis (clock e)) s4) as D2.
  rewrite Hd in D, D2. cbv zeta in D. cbn [fst snd] in D, D2.
  destruct D as (_ & (_ & _ & D) & _).
  rewrite W2, P2, D2, S1, D, P, T, S2. unfold pass_recomputes.
  split; [destruct (_ && _); reflexivity | reflexivity].
Qed.

Lemma run_no_recompute es :
  forall s, count is_almanac (snd (run es s)) = 0 ->
            lastSunUpdate (fst (run es s)) = lastSunUpdate s.
Proof.
  induction es as [|e rest IH]; intros s H; [reflexivity|].
  rewrite run_cons in H |- *. cbn [fst snd] in H |- *.
  rewrite count_app in H.
  pose proof (loop_solar e s) as [L1 L2].
  pose proof (count_nonneg is_almanac (snd (run rest (fst (loop e s))))).
  destruct (pass_recomputes e s); [lia|].
  rewrite IH by lia. exact L2.
Qed.

(** C7.  [isItDark] is a total function of the clock, the NTP reading and
    the solar cache.  With an epoch below 1735689600 it answers from the
    fixed window (minute of day at least 1020 or at most 480) and leaves the
    cache alone.  Otherwise it answers that it is dark exactly when the
    minute of day is at least 15 minutes before the cached sunset or at most
    15 minutes after the cached sunrise, after refreshing the cache when more
    than 3600000 ms have passed since the last refresh; two successive
    refreshes in a run of the loop are more than 3600000 ms apart. *)
Theorem isItDark_answer (e : DarkEnv) (s : State) :
  let dark := fst (fst (isItDark e s)) in
  let s' := snd (fst (isItDark e s)) in
  let m := currentMin e in
  (u32 (dk_epoch e) < 1735689600 ->
     dark = (1020 <=? m) || (m <=? 480) /\ s' = s) /\
  (1735689600 <= u32 (dk_epoch e) ->
     dark = (s16 (cachedSunset s' - 15) <=? m)
            || (m <=? s16 (cachedSunrise s' + 15)) /\
     s' = (if 3600000 <? u32 (millis (dk_clock e) - lastSunUpdate s)
           then set_solar (s16 (dk_sunrise e)) (s16 (dk_sunset e))
                  (millis (dk_clock e)) s
           else s)) /\
  (1735689600 <= u32 (dk_epoch e) ->
   0 <= dk_hours e < 24 -> 0 <= dk_minutes e < 60 ->
   0 <= cachedSunrise s' < 1440 -> 0 <= cachedSunset s' < 1440 ->
     (dark = true <->
      cachedSunset s' - 15 <= dk_hours e * 60 + dk_minutes e \/
      dk_hours e * 60 + dk_minutes e <= cachedSunrise s' + 15)) /\
  (forall e1 mid e2 s0,
     count is_almanac (snd (loop e1 s0)) = 1 ->
     count is_almanac (snd (run mid (fst (loop e1 s0)))) = 0 ->
     count is_almanac
       (snd (loop e2 (fst (run mid (fst (loop e1 s0)))))) = 1 ->
     3600000 < u32 (millis (dk_clock (env_dark e2))
                    - millis (dk_clock (env_dark e1)))).
Proof.
  cbn zeta.
  assert (P2 : 1735689600 <= u32 (dk_epoch e) ->
     fst (fst (isItDark e s))
       = (s16 (cachedSunset (snd (fst (isItDark e s))) - 15) <=? currentMin e)
         || (currentMin e
             <=? s16 (cachedSunrise (snd (fst (isItDark e s))) + 15)) /\
     snd (fst (isItDark e s))
       = (if 3600000 <? u32 (millis (dk_clock e) - lastSunUpdate s)
          then set_solar (s16 (dk_sunrise e)) (s16 (dk_sunset e))
                 (millis (dk_clock e)) s
          else s)).
  { intros E. unfold isItDark.
    destruct (u32 (dk_epoch e) <? 1735689600) eqn:C;
      [apply Z.ltb_lt in C; lia|].
    destruct (3600000 <? _); split; reflexivity. }
  split; [|split; [exact P2|split]].
  - intros E. unfold isItDark. apply Z.ltb_lt in E. rewrite E.
    split; reflexivity.
  - intros E Hh Hm Hr Hs. destruct (P2 E) as [-> _].
    rewrite (currentMin_plain e Hh Hm), !s16_plain by lia.
    rewrite orb_true_iff, !Z.leb_le. reflexivity.
  - intros e1 mid e2 s0 H1 Hm H2.
    pose proof (loop_solar e1 s0) as [A1 B1].
    pose proof (loop_solar e2 (fst (run mid (fst (loop e1 s0))))) as [A2 _].
    rewrite H1 in A1. rewrite H2 in A2.
    destruct (pass_recomputes e1 s0); [|discriminate].
    destruct (pass_recomputes _ _) eqn:E2 in A2; [|discriminate].
    unfold pass_recomputes, recomputes in E2.
    rewrite !andb_true_iff in E2. destruct E2 as (_ & _ & E2).
    rewrite (run_no_recompute mid _ Hm), B1 in E2.
    apply Z.ltb_lt in E2. exact E2.
Qed.

(** ** The event log *)

Lemma Slot_eqb_eq p q : Slot_eqb p q = true <-> p = q.
Proof. destruct p, q; cbn; split; intros H; congruence. Qed.

Lemma deref_assign p q v s :
  deref p (assign q v s) = if Slot_eqb p q then v else deref p s.
Proof. destruct p, q; reflexivity. Qed.

Lemma form_log_result e txt s :
  let r := fst (fst (form_log e txt s)) in
  (r = 1 /\ In (FormGet txt) (snd (form_log e txt s)) /\
   count is_form_get (snd (form_log e txt s)) = 1) \/
  (r = 0 /\ count is_form_get (snd (form_log e txt s)) = 0 /\
   snd (fst (form_log e txt s)) = s).
Proof.
  cbn zeta. unfold form_log.
  destruct (fl_wifi e); cbn [negb]; [|right; repeat split].
  destruct (fl_connected e), (fl_connectSSL e); cbn [negb andb];
    try (right; repeat split; fail);
    left; (split; [reflexivity|]); (split; [|reflexivity]);
    cbn; auto.
Qed.

Lemma scan_events_spec evs e t s :
  let r := scan_events evs e t s in
  match first_pending evs s with
  | None => r = (false, s, [])
  | Some ev =>
      let sent := form_log (env_log e) (log_line ev t s) s in
      r = (true,
           (if fst (fst sent) =? 0 then snd (fst sent)
            else assign (timestamp ev) 0 (snd (fst sent))),
           snd sent)
  end.
Proof.
  cbn zeta. unfold first_pending.
  induction evs as [|ev rest IH]; cbn [scan_events find]; [reflexivity|].
  destruct (0 <? deref (timestamp ev) s); [|exact IH].
  unfold log_line. destruct (form_log _ _ s) as [[r s1] o1]. reflexivity.
Qed.

Lemma keep_or_heartbeat_slots e t s :
  let r := if ssl_keepalive_interval <? u32 (t - last_ssl_activity s)
           then keepSSLWarm (env_keep e) s
           else porchLightHeartbeat (env_hb e) t s in
  (forall p, deref p (fst r) = deref p s) /\ count is_form_get (snd r) = 0.
Proof.
  cbn zeta. unfold keepSSLWarm, porchLightHeartbeat.
  repeat break_if; (split; [intros []; reflexivity | reflexivity]).
Qed.

Lemma drain_log_one_request e t s : count is_form_get (snd (drain_log e t s)) <= 1.
Proof.
  unfold drain_log. destruct (quiet t s); [|cbn; lia].
  pose proof (scan_events_spec events e t s) as S. cbv zeta in S.
  destruct (first_pending events s) as [ev|].
  - rewrite S. cbn [negb fst snd].
    pose proof (form_log_result (env_log e) (log_line ev t s) s) as R.
    cbv zeta in R. destruct R as [(_ & _ & R)|(_ & R & _)]; lia.
  - rewrite S. cbn [negb].
    pose proof (keep_or_heartbeat_slots e t s) as [_ K]. lia.
Qed.

Lemma loop_one_request e s : count is_form_get (snd (loop e s)) <= 1.
Proof.
  destruct (loop_stages e s)
    as (r & s1 & o1 & s2 & o2 & s4 & o4 & s5 & o5 & Hw & Hs & Hp & Hd & ->).
  cbn [snd]. rewrite !count_app.
  assert (W : count is_form_get o1 = 0).
  { replace o1 with (snd (wifi_check (env_wifi e) s)) by now rewrite Hw.
    unfold wifi_check. repeat break_if; reflexivity. }
  assert (S : count is_form_get o2 = 0).
  { destruct (on_sensor_out e (millis (clock e))
                (find_body (pulse_lower e) (pulse_upper e)) s1)
      as (o3 & o5' & E & A & B).
    rewrite Hs in E. cbn [snd] in E. rewrite E, count_app.
    assert (A0 : count is_form_get o3 = 0)
      by (destruct A as [-> | ->]; reflexivity).
    assert (B0 : count is_form_get o5' = 0).
    { destruct B as [-> | (s' & ->)]; [reflexivity|].
      unfold porch_on. repeat break_if; reflexivity. }
    lia. }
  assert (P : count is_form_get o4 = 0).
  { replace o4 with (snd (porch_timeout e (millis (clock e))
                            (light_timeout (millis (clock e)) s2)))
      by now rewrite Hp.
    unfold porch_timeout, porch_off. repeat break_if; reflexivity. }
  pose proof (drain_log_one_request e (millis (clock e)) s4) as D.
  rewrite Hd in D. cbn [snd] in D. lia.
Qed.

(** The logging block, entry by entry, in the vocabulary of the
    properties. *)
Lemma drain_log_entry (e : Env) (t : Z) (s : State) :
  let s' := fst (drain_log e t s) in
  let out := snd (drain_log e t s) in
  count is_form_get (snd (loop e s)) <= 1 /\
  count is_form_get out <= 1 /\
  match (if quiet t s then first_pending events s else None) with
  | None => (forall p, deref p s' = deref p s) /\ count is_form_get out = 0
  | Some ev =>
      let line := format_event (msg ev)
                    (u32 (t - deref (timestamp ev) s) / 1000) in
      let r := fst (fst (form_log (env_log e) line s)) in
      0 < deref (timestamp ev) s /\
      (forall p, p <> timestamp ev -> deref p s' = deref p s) /\
      (r <> 0 -> deref (timestamp ev) s' = 0 /\ In (FormGet line) out) /\
      (r = 0 -> deref (timestamp ev) s' = deref (timestamp ev) s /\
                count is_form_get out = 0)
  end.
Proof.
  cbn zeta. split; [apply loop_one_request|]. unfold drain_log.
  destruct (quiet t s); [|cbn; split; [lia|split; [intros p|]; reflexivity]].
  pose proof (scan_events_spec events e t s) as S. cbv zeta in S.
  destruct (first_pending events s) as [ev|] eqn:Fp.
  - rewrite S. cbn [negb fst snd]. clear S.
    assert (Pos : 0 < deref (timestamp ev) s).
    { unfold first_pending in Fp. apply find_some in Fp as [_ Fp].
      now apply Z.ltb_lt in Fp. }
    unfold log_line.
    pose proof (form_log_frame (env_log e)
      (format_event (msg ev) (u32 (t - deref (timestamp ev) s) / 1000)) s) as F.
    pose proof (form_log_result (env_log e)
      (format_event (msg ev) (u32 (t - deref (timestamp ev) s) / 1000)) s) as R.
    destruct (form_log _ _ s) as [[r s1] o1].
    cbv zeta in F, R. cbn [fst snd] in F, R |- *.
    destruct F as (_ & _ & _ & _ & F).
    destruct R as [(-> & Rin & Rc)|(-> & Rc & Rs)]; cbn [Z.eqb].
    + split; [lia|]. split; [exact Pos|]. split; [|split].
      * intros p Hp. rewrite deref_assign.
        destruct (Slot_eqb p (timestamp ev)) eqn:E;
          [apply Slot_eqb_eq in E; contradiction | apply F].
      * intros _. rewrite deref_assign.
        destruct (Slot_eqb _ _) eqn:E; [split; [reflexivity|exact Rin]|].
        exfalso. assert (T : Slot_eqb (timestamp ev) (timestamp ev) = true)
          by now apply Slot_eqb_eq.
        congruence.
      * intros H; discriminate H.
    + split; [lia|]. split; [exact Pos|]. split; [|split].
      * intros p _. apply F.
      * intros H; contradiction H; reflexivity.
      * intros _. split; [apply F | exact Rc].
  - rewrite S. cbn [negb]. clear S.
    pose proof (keep_or_heartbeat_slots e t s) as K. cbv zeta in K.
    destruct K as [K1 K2]. split; [lia|]. split; assumption.
Qed.

(** C9.  The logging block of [loop] does nothing unless both detection
    times are more than 3000 ms old ([the_time - low_detect_time > 3000] and
    [the_time - up_detect_time > 3000], unsigned 32-bit differences).  Then
    it stops at the first entry of the registry (WiFi RECONNECTED, Stair
    light ON, Porch light ON, Stair light OFF, Kasa Porch Timeout, in this
    order) with a timestamp above zero and hands [form_log] the line
    "<message> (<age>s ago)" for that entry alone, the age in whole seconds:
    at most one request is written per pass of [loop].  The timestamp of
    that entry becomes zero when [form_log] returns non-zero and is unchanged
    when it returns zero; every other timestamp is unchanged.  So a light
    switched on at 4000 is reported in the pass at 10000 as
    "Stair light ON (6s ago)". *)
Theorem log_drain (e : Env) (t : Z) (s : State) :
  let s' := fst (drain_log e t s) in
  let out := snd (drain_log e t s) in
  let is_quiet :=
    (3000 <? u32 (t - low_detect_time s))
    && (3000 <? u32 (t - up_detect_time s)) in
  let registry :=
    [ mkLogEvent SlotWiFi "WiFi RECONNECTED";
      mkLogEvent SlotOn "Stair light ON";
      mkLogEvent SlotPorchOn "Porch light ON";
      mkLogEvent SlotOff "Stair light OFF";
      mkLogEvent SlotKasaFail "Kasa Porch Timeout" ] in
  let pending := find (fun ev => 0 <? deref (timestamp ev) s) registry in
  count is_form_get (snd (loop e s)) <= 1 /\
  count is_form_get out <= 1 /\
  (is_quiet = false -> s' = s /\ out = []) /\
  match (if is_quiet then pending else None) with
  | None => (forall p, deref p s' = deref p s) /\ count is_form_get out = 0
  | Some ev =>
      let age := u32 (t - deref (timestamp ev) s) / 1000 in
      let line := (msg ev ++ " (" ++ decimal age ++ "s ago)")%string in
      let r := fst (fst (form_log (env_log e) line s)) in
      0 < deref (timestamp ev) s /\
      (forall p, p <> timestamp ev -> deref p s' = deref p s) /\
      (r <> 0 -> deref (timestamp ev) s' = 0 /\ In (FormGet line) out) /\
      (r = 0 -> deref (timestamp ev) s' = deref (timestamp ev) s /\
                count is_form_get out = 0)
  end /\
  (let e1 := pass 10000 0 0 22 (switch_up 10000 EmptyString) (off_up 10000) in
   let s1 := assign SlotOff 9000 (assign SlotOn 4000 boot) in
   snd (drain_log e1 10000 s1) = [FormGet "Stair light ON (6s ago)"] /\
   deref SlotOn (fst (drain_log e1 10000 s1)) = 0 /\
   deref SlotOff (fst (drain_log e1 10000 s1)) = 9000 /\
   snd (drain_log e1 10000 (fst (drain_log e1 10000 s1)))
   = [FormGet "Stair light OFF (1s ago)"] /\
   drain_log e1 2999 s1 = (s1, []) /\
   drain_log e1 3000 s1 = (s1, [])).
Proof.
  cbn zeta.
  pose proof (drain_log_entry e t s) as H. cbv zeta in H.
  destruct H as (H1 & H2 & H3).
  split; [exact H1|]. split; [exact H2|]. split; [|split].
  - intros Q. unfold drain_log, quiet. rewrite Q. split; reflexivity.
  - exact H3.
  - vm_compute. repeat split; reflexivity.
Qed.

(** ** Zero as the empty slot *)

Lemma or_one_nonzero t : or_one t <> 0.
Proof. unfold or_one. destruct (t =? 0) eqn:E; [lia|]. now apply Z.eqb_neq. Qed.

Lemma stamp_zero a b : stamp a b = 0 <-> millis a <> 0 /\ millis b = 0.
Proof.
  unfold stamp. destruct (millis a =? 0) eqn:E.
  - apply Z.eqb_eq in E. split; [discriminate | intros [H _]; contradiction].
  - apply Z.eqb_neq in E. split; [intros H; split; assumption | intros [_ H]; exact H].
Qed.

(** C10 at the input where the sketch breaks it.  The stamps that [loop]
    writes from [the_time] are never zero, but [millis() ? millis() : 1]
    reads the clock twice, and is zero exactly when the first read is not
    zero and the second is.  A walk up the stairs just before the 32-bit
    clock wraps: the connection of [porch_on] is refused, the first read of
    the clock gives 4294967295, the second gives 0, and the slot of the
    failure is left empty. *)
Theorem kasa_fail_stamp_lost :
  let refused :=
    mkPorchOnEnv true false EmptyString false 4294965695 4294967295 4294967296 in
  let es := [lower_pass 4294960000;
             pass 4294965695 0 1000 22 refused (off_up 4294965695)] in
  In (Connect false) (snd (run es boot)) /\
  logTimeKasaFail (fst (run es boot)) = 0 /\
  (forall t, or_one t <> 0) /\
  (forall a b, stamp a b = 0 <-> millis a <> 0 /\ millis b = 0).
Proof.
  cbn zeta. split; [|split; [|split]].
  - vm_compute. left. reflexivity.
  - vm_compute. reflexivity.
  - exact or_one_nonzero.
  - exact stamp_zero.
Qed.

(** * Further properties of the sketch *)

(** ** The range sensors *)

(** X1.  [find_body] reports the lower sensor in bit 1 and the upper sensor in
    bit 2, each exactly when its echo is shorter than [ping_range] (3552 us)
    and not zero: [pulseIn] returns 0 when no echo came back in time, and
    that is never a body. *)
Theorem find_body_detects (pulseL pulseU : Z) :
  let body := find_body pulseL pulseU in
  (bit 1 body = true <-> 0 < u32 pulseL < 3552) /\
  (bit 2 body = true <-> 0 < u32 pulseU < 3552) /\
  (body = 0 <-> ~ 0 < u32 pulseL < 3552 /\ ~ 0 < u32 pulseU < 3552) /\
  0 <= body <= 3.
Proof.
  cbn zeta. unfold find_body. change ping_range with 3552.
  assert (HL : 0 <= u32 pulseL) by (unfold u32; apply Z.mod_pos_bound; lia).
  assert (HU : 0 <= u32 pulseU) by (unfold u32; apply Z.mod_pos_bound; lia).
  generalize dependent (u32 pulseL). generalize dependent (u32 pulseU).
  intros u HU l HL.
  destruct (Z.ltb_spec l 3552); destruct (Z.eqb_spec l 0);
  destruct (Z.ltb_spec u 3552); destruct (Z.eqb_spec u 0);
  cbn [negb andb];
  (split; [|split; [|split]]); split; intros;
  try reflexivity; try discriminate; try lia.
Qed.

(** ** The frames of the Kasa protocol *)

(** X2.  Whatever the characters and the key, the obfuscation writes one byte per
    character and nothing outside 0..255. *)
Theorem obfuscate_writes_bytes (cs : list Z) (key : Z) :
  List.length (obfuscate key cs) = List.length cs /\
  Forall is_byte (obfuscate key cs).
Proof.
  revert key. induction cs as [|c rest IH]; intros key; cbn [obfuscate].
  - split; [reflexivity | constructor].
  - destruct (IH (Z.lxor key (schar c))) as [L B]. split.
    + cbn [List.length]. now rewrite L.
    + constructor; [|exact B].
      unfold is_byte, u8. apply Z.mod_pos_bound. lia.
Qed.

Lemma c_str_bytes cs : Forall is_byte cs -> Forall is_byte (c_str cs).
Proof.
  induction 1 as [|c rest Hc _ IH]; cbn [c_str]; [constructor|].
  destruct (c =? 0); constructor; assumption.
Qed.

Lemma high_low_byte len :
  0 <= len < 65536 -> 256 * highByte len + lowByte len = len.
Proof.
  intros H. unfold highByte, lowByte. change 255 with (Z.ones 8).
  rewrite !Z.land_ones, Z.shiftr_div_pow2 by lia. change (2 ^ 8) with 256.
  rewrite (Z.mod_small (len / 256)).
  - pose proof (Z.div_mod len 256). lia.
  - split; [apply Z.div_pos; lia | apply Z.div_lt_upper_bound; lia].
Qed.

(** X3.  A frame written by [sendKasaCommand] for a message shorter than 65536
    characters is two zero bytes, the length of the message as a 16-bit
    big-endian number and one byte per character; decoding the bytes after
    the header gives the characters of the message back. *)
Theorem kasa_frame_parses (m : string) :
  let cs := c_str (bytes_of_string m) in
  let len := Z.of_nat (List.length cs) in
  len < 65536 ->
  firstn 2 (kasa_frame m) = [0; 0] /\
  256 * nth 2 (kasa_frame m) 0 + nth 3 (kasa_frame m) 0 = len /\
  Z.of_nat (List.length (kasa_frame m)) = 4 + len /\
  deobfuscate 171 (skipn 4 (kasa_frame m)) = cs.
Proof.
  cbn zeta. intros H. unfold kasa_frame.
  set (cs := c_str (bytes_of_string m)) in *.
  cbn [app firstn nth skipn List.length].
  split; [reflexivity|]. split; [apply high_low_byte; lia|]. split.
  - destruct (obfuscate_writes_bytes cs 171) as [L _]. rewrite L. lia.
  - refine (deobfuscate_obfuscate cs _ 171).
    subst cs. apply c_str_bytes, bytes_of_string_bytes.
Qed.

Lemma kasa_frame_parses_witness :
  Z.of_nat (List.length (c_str (bytes_of_string cmd_on))) < 65536 /\
  deobfuscate 171 (skipn 4 (kasa_frame cmd_on))
    = c_str (bytes_of_string cmd_on).
Proof.
  assert (H : Z.of_nat (List.length (c_str (bytes_of_string cmd_on))) < 65536)
    by (vm_compute; reflexivity).
  split; [exact H|].
  exact (proj2 (proj2 (proj2 (kasa_frame_parses cmd_on H)))).
Defined.

(** ** The telemetry request *)

Lemma string_length_app (a b : string) :
  String.length (a ++ b) = (String.length a + String.length b)%nat.
Proof. induction a as [|c a IH]; cbn; [reflexivity | now rewrite IH]. Qed.

Lemma string_of_uint_length d :
  String.length (NilEmpty.string_of_uint d) = Decimal.nb_digits d.
Proof. induction d; cbn; congruence. Qed.

Lemma of_uint_acc_lower d :
  forall acc,
    (N.pos acc * 10 ^ N.of_nat (Decimal.nb_digits d)
     <= N.pos (Pos.of_uint_acc d acc))%N.
Proof.
  induction d; intros acc; cbn [Pos.of_uint_acc Decimal.nb_digits];
    try (rewrite N.pow_0_r; lia);
    (rewrite Nnat.Nat2N.inj_succ, N.pow_succ_r by lia;
     etransitivity; [|apply IHd]; nia).
Qed.

Lemma nzhead_not_D0 d u : Decimal.nzhead d <> Decimal.D0 u.
Proof. induction d; cbn; try discriminate. exact IHd. Qed.

Lemma to_uint_digits (n : N) (k : nat) :
  (n < 10 ^ N.of_nat (S k))%N -> (Decimal.nb_digits (N.to_uint n) <= S k)%nat.
Proof.
  intros H.
  pose proof (DecimalN.Unsigned.to_of (N.to_uint n)) as E.
  rewrite DecimalN.Unsigned.of_to in E.
  pose proof (DecimalN.Unsigned.of_to n) as V.
  remember (N.to_uint n) as d eqn:Hd. clear Hd.
  unfold Decimal.unorm in E.
  pose proof (nzhead_not_D0 d) as NZ.
  destruct (Decimal.nzhead d) as [|u|u|u|u|u|u|u|u|u|u];
    try (exfalso; eapply NZ; reflexivity);
    subst d; cbn [Decimal.nb_digits]; try lia;
    cbn [N.of_uint Pos.of_uint] in V;
    apply le_n_S;
    match type of V with
    | N.pos (Pos.of_uint_acc ?u ?a) = _ =>
        pose proof (of_uint_acc_lower u a) as B
    end;
    rewrite V in B;
    assert (P : (10 ^ N.of_nat (Decimal.nb_digits u) < 10 ^ N.of_nat (S k))%N)
      by (eapply N.le_lt_trans; [|exact H];
          eapply N.le_trans; [|exact B]; nia);
    apply N.pow_lt_mono_r_iff in P; lia.
Qed.

Lemma decimal_length z :
  0 <= z < 10000000 -> (String.length (decimal z) <= 7)%nat.
Proof.
  intros H. unfold decimal.
  pose proof (to_uint_digits (Z.to_N z) 6) as D.
  assert (B : (Z.to_N z < 10 ^ N.of_nat 7)%N) by (cbn; lia).
  specialize (D B).
  rewrite <- string_of_uint_length in D.
  unfold NilZero.string_of_uint.
  destruct (N.to_uint (Z.to_N z)); [cbn; lia | exact D ..].
Qed.

(** X4.  The line that [loop] formats into [logBuf], a buffer of 50 characters,
    fits with its terminating NUL for every entry of the registry and every
    age: it is at most 33 characters long. *)
Theorem logBuf_fits (ev : LogEvent) (t : Z) (s : State) :
  In ev events -> (String.length (log_line ev t s) + 1 <= 34)%nat.
Proof.
  intros H. unfold log_line, format_event.
  rewrite !string_length_app.
  assert (A : (String.length
                 (decimal (u32 (t - deref (timestamp ev) s) / 1000)) <= 7)%nat).
  { apply decimal_length. unfold u32.
    pose proof (Z.mod_pos_bound (t - deref (timestamp ev) s) 4294967296).
    split; [apply Z.div_pos; lia | apply Z.div_lt_upper_bound; lia]. }
  assert (M : (String.length (msg ev) <= 18)%nat).
  { cbn in H. destruct H as [<-|[<-|[<-|[<-|[<-|[]]]]]]; cbn; lia. }
  cbn [String.length]. lia.
Qed.

Lemma logBuf_fits_witness :
  In (mkLogEvent SlotKasaFail "Kasa Porch Timeout") events /\
  (String.length
     (log_line (mkLogEvent SlotKasaFail "Kasa Porch Timeout") 0
        (assign SlotKasaFail 1 boot)) + 1 <= 34)%nat.
Proof.
  assert (H : In (mkLogEvent SlotKasaFail "Kasa Porch Timeout") events)
    by (cbn; tauto).
  split; [exact H|].
  exact (logBuf_fits _ 0 (assign SlotKasaFail 1 boot) H).
Defined.

Lemma digit_char_unreserved d : 0 <= d < 16 -> unreserved (digit_char d) = true.
Proof.
  intros H.
  assert (E : d = 0 \/ d = 1 \/ d = 2 \/ d = 3 \/ d = 4 \/ d = 5 \/ d = 6
              \/ d = 7 \/ d = 8 \/ d = 9 \/ d = 10 \/ d = 11 \/ d = 12
              \/ d = 13 \/ d = 14 \/ d = 15) by lia.
  repeat (destruct E as [->|E]; [reflexivity|]). subst d. reflexivity.
Qed.

Lemma printNumber_hex_digits fuel :
  forall n acc,
    Forall (fun x => unreserved x = true) acc ->
    Forall (fun x => unreserved x = true) (printNumber fuel n 16 acc).
Proof.
  induction fuel as [|fuel IH]; intros n acc H; cbn [printNumber]; [exact H|].
  assert (D : Forall (fun x => unreserved x = true)
                (digit_char (n mod 16) :: acc)).
  { constructor; [|exact H]. apply digit_char_unreserved.
    apply Z.mod_pos_bound. lia. }
  destruct (n / 16 =? 0); [exact D | apply IH; exact D].
Qed.

Lemma unreserved_range c : unreserved c = true -> 45 <= c <= 126.
Proof.
  unfold unreserved. rewrite !orb_true_iff, !andb_true_iff, !Z.leb_le, !Z.eqb_eq.
  lia.
Qed.

(** X5.  Whatever the message, the part of the request that [form_log] builds
    from it holds only letters, digits, [-], [.], [_], [~] and [%]: no
    space, no line end and no [&] reaches the request line through the
    message. *)
Theorem url_encode_safe (cs : list Z) :
  (forall x, In x (url_encode cs) -> unreserved x = true \/ x = 37) /\
  ~ In 32 (url_encode cs) /\ ~ In 13 (url_encode cs) /\
  ~ In 10 (url_encode cs) /\ ~ In 38 (url_encode cs).
Proof.
  assert (A : Forall (fun x => unreserved x = true \/ x = 37) (url_encode cs)).
  { induction cs as [|b rest IH]; cbn [url_encode]; [constructor|].
    destruct (b =? 0); [constructor|].
    apply Forall_app. split; [|exact IH].
    destruct (unreserved (schar b)) eqn:U.
    - constructor; [|constructor]. left.
      pose proof (unreserved_range _ U).
      unfold u8. rewrite Z.mod_small by lia. exact U.
    - constructor; [right; reflexivity|].
      apply Forall_app. split.
      + destruct (schar b <? 16); constructor; [left; reflexivity|constructor].
      + eapply Forall_impl; [|apply printNumber_hex_digits; constructor].
        intros x Hx. left. exact Hx. }
  rewrite Forall_forall in A.
  split; [exact A|].
  repeat split; intros H; destruct (A _ H) as [U|U]; discriminate U.
Qed.

Lemma ascii_char b : is_ascii b -> schar b = b /\ u8 b = b /\ (b =? 0) = false.
Proof.
  unfold is_ascii, schar, u8. intros H.
  rewrite !Z.mod_small by lia. repeat split; [lia|]. apply Z.eqb_neq. lia.
Qed.

Lemma print_hex_ascii b :
  is_ascii b ->
  (if b <? 16 then [48] else []) ++ print_hex b
    = [digit_char (b / 16); digit_char (b mod 16)].
Proof.
  unfold is_ascii. intros H. unfold print_hex, u32.
  rewrite (Z.mod_small b) by lia.
  cbn [printNumber].
  destruct (Z.ltb_spec b 16) as [L|L].
  - rewrite (Z.div_small b 16) by lia. reflexivity.
  - destruct (Z.eqb_spec (b / 16) 0) as [E|E].
    + exfalso. pose proof (Z.div_mod b 16). pose proof (Z.mod_pos_bound b 16).
      lia.
    + assert (Q : b / 16 / 16 = 0).
      { apply Z.div_small. split; [apply Z.div_pos; lia|].
        apply Z.div_lt_upper_bound; lia. }
      rewrite Q. cbn [Z.eqb app].
      rewrite (Z.mod_small (b / 16)); [reflexivity|].
      split; [apply Z.div_pos; lia | apply Z.div_lt_upper_bound; lia].
Qed.

Lemma hex_value_digit d : 0 <= d < 16 -> hex_value (digit_char d) = d.
Proof.
  intros H. unfold hex_value, digit_char.
  destruct (Z.ltb_spec d 10); [destruct (Z.ltb_spec (d + 48) 58)
                              | destruct (Z.ltb_spec (d + 65 - 10) 58)]; lia.
Qed.

Lemma url_encode_flat (cs : list Z) :
  Forall is_ascii cs -> url_encode cs = flat_map percent_encoded cs.
Proof.
  induction 1 as [|b rest Hb _ IH]; cbn [url_encode flat_map]; [reflexivity|].
  destruct (ascii_char b Hb) as (-> & E & ->). rewrite IH. f_equal.
  unfold percent_encoded.
  destruct (unreserved b); [now rewrite E|].
  cbn [app]. f_equal. apply (print_hex_ascii b Hb).
Qed.

(** X6.  For a message of 7-bit ASCII characters, [form_log] writes every
    letter, digit, [-], [.], [_] and [~] as it is and every other character
    as [%] followed by exactly two uppercase hexadecimal digits, the high
    one first: the leading zero that [form_log] adds below 16 is the one
    that [print] leaves out. *)
Theorem url_encode_ascii (cs : list Z) :
  Forall is_ascii cs ->
  url_encode cs = flat_map percent_encoded cs /\
  (forall b, In b cs -> unreserved b = false ->
     percent_encoded b = [37; digit_char (b / 16); digit_char (b mod 16)] /\
     16 * hex_value (digit_char (b / 16)) + hex_value (digit_char (b mod 16))
       = b).
Proof.
  intros H. split; [exact (url_encode_flat cs H)|].
  intros b Hb U. rewrite Forall_forall in H. specialize (H b Hb).
  unfold percent_encoded. rewrite U. split; [reflexivity|].
  unfold is_ascii in H. rewrite !hex_value_digit.
  - pose proof (Z.div_mod b 16). lia.
  - apply Z.mod_pos_bound. lia.
  - split; [apply Z.div_pos; lia | apply Z.div_lt_upper_bound; lia].
Qed.

Lemma url_encode_ascii_witness :
  Forall is_ascii (bytes_of_string "Stair light ON (4s ago)") /\
  url_encode (bytes_of_string "Stair light ON (4s ago)")
    = bytes_of_string "Stair%20light%20ON%20%284s%20ago%29".
Proof.
  assert (H : Forall is_ascii (bytes_of_string "Stair light ON (4s ago)"))
    by (vm_compute; repeat constructor).
  split; [exact H|].
  rewrite (proj1 (url_encode_ascii _ H)). vm_compute. reflexivity.
Defined.

Lemma url_decode_percent_encoded b rest :
  is_ascii b -> url_decode (percent_encoded b ++ rest) = b :: url_decode rest.
Proof.
  unfold is_ascii. intros H. unfold percent_encoded.
  destruct (unreserved b) eqn:U; cbn [app url_decode].
  - destruct (Z.eqb_spec b 37) as [->|_]; [discriminate U | reflexivity].
  - cbn [Z.eqb Pos.eqb]. f_equal.
    rewrite !hex_value_digit.
    + pose proof (Z.div_mod b 16). lia.
    + apply Z.mod_pos_bound. lia.
    + split; [apply Z.div_pos; lia | apply Z.div_lt_upper_bound; lia].
Qed.

(** X7.  Nothing of an ASCII message is lost in the request: percent-decoding
    what [form_log] writes for it gives the message back, so two different
    messages never give the same request. *)
Theorem url_encode_decodes (cs cs' : list Z) :
  Forall is_ascii cs ->
  url_decode (url_encode cs) = cs /\
  (Forall is_ascii cs' -> url_encode cs = url_encode cs' -> cs = cs').
Proof.
  assert (R : forall l, Forall is_ascii l -> url_decode (url_encode l) = l).
  { intros l H. rewrite (url_encode_flat l H).
    induction H as [|b rest Hb _ IH]; cbn [flat_map]; [reflexivity|].
    rewrite (url_decode_percent_encoded b _ Hb), IH. reflexivity. }
  intros H. split; [exact (R cs H)|].
  intros H' E. rewrite <- (R cs H), <- (R cs' H'), E. reflexivity.
Qed.

Lemma url_encode_decodes_witness :
  Forall is_ascii (bytes_of_string "WiFi RECONNECTED (0s ago)") /\
  url_decode (url_encode (bytes_of_string "WiFi RECONNECTED (0s ago)"))
    = bytes_of_string "WiFi RECONNECTED (0s ago)".
Proof.
  assert (H : Forall is_ascii (bytes_of_string "WiFi RECONNECTED (0s ago)"))
    by (vm_compute; repeat constructor).
  split; [exact H|].
  exact (proj1 (url_encode_decodes _ [] H)).
Defined.

(** ** The porch light is switched off only after it was switched on *)

Lemma porch_timeout_balance e t s :
  porch_off_commands (snd (porch_timeout e t s))
    + deadline_set (fst (porch_timeout e t s)) <= deadline_set s.
Proof.
  rewrite porch_timeout_off_commands.
  unfold porch_timeout. fold (deadline_due t s).
  destruct (deadline_due t s) eqn:D; cbn [andb fst].
  - assert (S : deadline_set s = 1).
    { unfold deadline_due in D. apply andb_true_iff in D as [D _].
      unfold deadline_set. apply negb_true_iff in D. now rewrite D. }
    rewrite S. unfold porch_off, deadline_set.
    destruct (off_wifi (env_off e)), (off_connect (env_off e));
      cbn [negb andb fst porch_auto_off_time set_porch_auto_off_time];
      try reflexivity; destruct (_ =? 0); lia.
  - lia.
Qed.

Lemma deadline_set_range s : 0 <= deadline_set s <= 1.
Proof. unfold deadline_set. destruct (_ =? 0); lia. Qed.

Lemma loop_balance e s :
  porch_off_commands (snd (loop e s)) + deadline_set (fst (loop e s))
  <= porch_on_commands (snd (loop e s)) + deadline_set s.
Proof.
  destruct (loop_stages e s)
    as (r & s1 & o1 & s2 & o2 & s4 & o4 & s5 & o5 & Hw & Hs & Hp & Hd & ->).
  cbn [fst snd]. unfold porch_on_commands, porch_off_commands.
  rewrite !count_app.
  pose proof (wifi_check_no_kasa (env_wifi e) s cmd_off) as W.
  pose proof (wifi_check_no_kasa (env_wifi e) s cmd_on) as W'.
  rewrite Hw in W, W'. cbn [snd] in W, W'. rewrite W, W'.
  pose proof (wifi_check_frame (env_wifi e) s) as F; rewrite Hw in F.
  cbv zeta in F. cbn [fst snd] in F. destruct F as (_ & _ & F).
  pose proof (on_sensor_off_commands e (millis (clock e))
                (find_body (pulse_lower e) (pulse_upper e)) s1) as S.
  pose proof (on_sensor_keeps_deadline e (millis (clock e))
                (find_body (pulse_lower e) (pulse_upper e)) s1) as S'.
  pose proof (on_sensor_on_commands e (millis (clock e))
                (find_body (pulse_lower e) (pulse_upper e)) s1) as S''.
  cbv zeta in S''.
  rewrite Hs in S, S', S''. cbn [fst snd] in S, S', S''.
  unfold porch_off_commands, porch_on_commands in S, S', S''. rewrite S.
  pose proof (light_timeout_light (millis (clock e)) s2) as T.
  cbv zeta in T. destruct T as (_ & _ & _ & _ & _ & _ & T).
  pose proof (porch_timeout_balance e (millis (clock e))
                (light_timeout (millis (clock e)) s2)) as P.
  pose proof (porch_timeout_on_commands e (millis (clock e))
                (light_timeout (millis (clock e)) s2)) as P'.
  rewrite Hp in P, P'. cbn [fst snd] in P, P'.
  unfold porch_off_commands, porch_on_commands in P, P'. rewrite P'.
  pose proof (drain_log_no_relay_command e (millis (clock e)) s4) as [D' D].
  pose proof (drain_log_frame e (millis (clock e)) s4) as G.
  rewrite Hd in D, D', G. cbv zeta in G. cbn [fst snd] in D, D', G.
  unfold porch_off_commands, porch_on_commands in D, D'. rewrite D, D'.
  destruct G as (_ & _ & _ & G).
  unfold same_porch in *.
  assert (E5 : deadline_set s5 = deadline_set s4)
    by (unfold deadline_set; now rewrite G).
  assert (E3 : deadline_set (light_timeout (millis (clock e)) s2)
               = deadline_set s2) by (unfold deadline_set; now rewrite T).
  assert (E1 : deadline_set s1 = deadline_set s)
    by (unfold deadline_set; now rewrite F).
  pose proof (deadline_set_range s1). pose proof (deadline_set_range s2).
  destruct (_ && switch_ready (env_on e)) in S''.
  - lia.
  - assert (E2 : deadline_set s2 = deadline_set s1)
      by (unfold deadline_set; now rewrite (S' S'')).
    lia.
Qed.

Lemma run_balance es :
  forall s,
    porch_off_commands (snd (run es s)) + deadline_set (fst (run es s))
    <= porch_on_commands (snd (run es s)) + deadline_set s.
Proof.
  induction es as [|e rest IH]; intros s; [cbn; lia|].
  rewrite run_cons. cbn [fst snd].
  unfold porch_on_commands, porch_off_commands in *. rewrite !count_app.
  pose proof (loop_balance e s) as L. specialize (IH (fst (loop e s))).
  unfold porch_on_commands, porch_off_commands in L. lia.
Qed.

(** X8.  In every run of the loop after [setup] the sketch has sent at most as
    many porch-off commands as porch-on commands: it never switches the
    porch light off without having switched it on before, and at most once
    for each time it switched it on. *)
Theorem porch_off_only_after_on (boot_env : FormLogEnv) (es : list Env) :
  porch_off_commands (snd (run es (fst (setup boot_env))))
  <= porch_on_commands (snd (run es (fst (setup boot_env)))).
Proof.
  pose proof (run_balance es (fst (setup boot_env))) as B.
  pose proof (deadline_set_range (fst (run es (fst (setup boot_env))))).
  assert (Z0 : deadline_set (fst (setup boot_env)) = 0).
  { unfold setup.
    pose proof (form_log_frame boot_env "SYSTEM BOOT V3.0" initial) as F.
    destruct (form_log _ _ initial) as [[r s1] o1].
    cbv zeta in F. cbn [fst snd] in F |- *.
    destruct F as (_ & _ & _ & F & _). unfold same_porch in F.
    unfold deadline_set. rewrite F. reflexivity. }
  lia.
Qed.

(** ** Time tests across the wrap of the clock *)

Lemma s32_shift z k : s32 (z + k * 4294967296) = s32 z.
Proof.
  unfold s32.
  replace (z + k * 4294967296 + 2147483648)
    with (z + 2147483648 + k * 4294967296) by lia.
  now rewrite Z_mod_plus_full.
Qed.

Lemma s32_small z : -2147483648 <= z < 2147483648 -> s32 z = z.
Proof. intros H. unfold s32. rewrite Z.mod_small by lia. lia. Qed.

Lemma s32_deadline t m d :
  s32 (millis t - u32 (millis m + d)) = s32 (t - m - d).
Proof.
  unfold millis, u32.
  pose proof (Z.div_mod t 4294967296 ltac:(lia)) as Ht.
  pose proof (Z.div_mod m 4294967296 ltac:(lia)) as Hm.
  pose proof (Z.div_mod (m mod 4294967296 + d) 4294967296 ltac:(lia)) as Hd.
  rewrite <- (s32_shift (t - m - d)
                (m / 4294967296 - t / 4294967296
                 + (m mod 4294967296 + d) / 4294967296)).
  f_equal. lia.
Qed.

(** X9.  The auto-off deadline that [porch_on] stores at clock [m] is not due in
    a pass at clock [t] less than [porch_duration] (300000 ms) later, and,
    unless the stored value is 0, it is due in every pass from then on for
    the next 2^31 ms, also when the 32-bit clock wraps in between. *)
Theorem porch_deadline_across_wrap (m t : Z) (s : State) :
  porch_auto_off_time s = u32 (millis m + porch_duration) ->
  (0 <= t - m < porch_duration -> deadline_due (millis t) s = false) /\
  (porch_duration <= t - m < porch_duration + 2147483648 ->
   porch_auto_off_time s <> 0 -> deadline_due (millis t) s = true).
Proof.
  intros E. unfold deadline_due. rewrite E, s32_deadline.
  unfold porch_duration in *. split.
  - intros H. rewrite s32_small by lia.
    destruct (Z.leb_spec 0 (t - m - 300000)); [lia|].
    apply andb_false_r.
  - intros H N. rewrite s32_small by lia.
    apply Z.eqb_neq in N. rewrite N.
    destruct (Z.leb_spec 0 (t - m - 300000)); [reflexivity|lia].
Qed.

Lemma porch_deadline_across_wrap_witness :
  let s := fst (run [lower_pass 4294700000;
                     upper_pass 4294705000 EmptyString] boot) in
  porch_auto_off_time s = u32 (millis 4294705000 + porch_duration) /\
  deadline_due (millis 4295000000) s = false /\
  deadline_due (millis 4295005000) s = true.
Proof.
  cbn zeta.
  assert (E : porch_auto_off_time
                (fst (run [lower_pass 4294700000;
                           upper_pass 4294705000 EmptyString] boot))
              = u32 (millis 4294705000 + porch_duration))
    by (vm_compute; reflexivity).
  split; [exact E|]. split.
  - apply (proj1 (porch_deadline_across_wrap 4294705000 4295000000 _ E)).
    unfold porch_duration. lia.
  - apply (proj2 (porch_deadline_across_wrap 4294705000 4295005000 _ E)).
    + unfold porch_duration. lia.
    + rewrite E. vm_compute. discriminate.
Defined.

Lemma u32_millis_diff t0 t :
  0 <= t - t0 < 4294967296 -> u32 (millis t - millis t0) = t - t0.
Proof.
  intros H. rewrite u32_sub_millis. unfold u32. apply Z.mod_small. exact H.
Qed.

(** X10.  With the light on and the latest detection in the dark at clock [t0],
    the test of [loop] at clock [t] keeps the light on while less than
    [light_length] (60000 ms) have passed and switches it off, stamping the
    "Stair light OFF" slot with a non-zero time, from 60000 ms on, also when
    the 32-bit clock wraps in between. *)
Theorem light_hold_across_wrap (t0 t : Z) (s : State) :
  pLight s = true -> body_time s = millis t0 ->
  0 <= t - t0 < 4294967296 ->
  let s' := light_timeout (millis t) s in
  (t - t0 < light_length -> s' = s) /\
  (light_length <= t - t0 ->
   pLight s' = false /\ logTimeOff s' = or_one (millis t) /\
   logTimeOff s' <> 0).
Proof.
  intros L B H. cbn zeta. unfold light_timeout.
  rewrite L, B, (u32_millis_diff t0 t H). cbn [andb]. split; intros C.
  - destruct (Z.leb_spec light_length (t - t0)); [lia | reflexivity].
  - destruct (Z.leb_spec light_length (t - t0)); [|lia].
    cbn. repeat split. apply or_one_nonzero.
Qed.

Lemma light_hold_across_wrap_witness :
  let s := fst (loop (lower_pass 4294960000) boot) in
  pLight s = true /\ body_time s = millis 4294960000 /\
  light_timeout (millis 4295019999) s = s /\
  pLight (light_timeout (millis 4295020000) s) = false.
Proof.
  cbn zeta.
  assert (L : pLight (fst (loop (lower_pass 4294960000) boot)) = true)
    by (vm_compute; reflexivity).
  assert (B : body_time (fst (loop (lower_pass 4294960000) boot))
              = millis 4294960000) by (vm_compute; reflexivity).
  split; [exact L|]. split; [exact B|]. split.
  - apply (light_hold_across_wrap 4294960000 4295019999 _ L B);
      unfold light_length; lia.
  - apply (light_hold_across_wrap 4294960000 4295020000 _ L B);
      unfold light_length; lia.
Defined.

(** ** Reconnection, keep-alive and heartbeat *)

Lemma on_sensor_net e t sensor s :
  same_net s (fst (on_sensor e t sensor s)) /\
  count is_telemetry (snd (on_sensor e t sensor s)) = 0.
Proof.
  unfold on_sensor, isItDark, porch_on, same_net.
  repeat break_if; cbn; repeat split; try reflexivity;
    repeat match goal with
           | H : (_, _) = (_, _) |- _ => inversion H; subst; clear H
           end; cbn; try reflexivity.
Qed.

Lemma wifi_check_net e s :
  same_net s (snd (fst (wifi_check e s))) /\
  count is_telemetry (snd (wifi_check e s)) = 0 /\
  low_detect_time (snd (fst (wifi_check e s))) = low_detect_time s /\
  up_detect_time (snd (fst (wifi_check e s))) = up_detect_time s.
Proof. unfold wifi_check, same_net. repeat break_if; cbn; repeat split. Qed.

Lemma porch_timeout_net e t s :
  same_net s (fst (porch_timeout e t s)) /\
  count is_telemetry (snd (porch_timeout e t s)) = 0 /\
  low_detect_time (fst (porch_timeout e t s)) = low_detect_time s /\
  up_detect_time (fst (porch_timeout e t s)) = up_detect_time s.
Proof.
  unfold porch_timeout, porch_off, same_net.
  repeat break_if; cbn; repeat split.
Qed.

Lemma light_timeout_net t s : same_net s (light_timeout t s).
Proof. unfold light_timeout, same_net. repeat break_if; cbn; repeat split. Qed.

Lemma find_body_bits pulseL pulseU :
  find_body pulseL pulseU <> 0 ->
  bit 1 (find_body pulseL pulseU) = true \/
  bit 2 (find_body pulseL pulseU) = true.
Proof.
  unfold find_body.
  destruct (_ && _); destruct (_ && _); cbn; intros H; auto.
Qed.

(** The state in which the logging block of a pass starts. *)
Lemma loop_before_drain e s :
  exists s4 o,
    loop e s = (fst (drain_log e (millis (clock e)) s4),
                o ++ snd (drain_log e (millis (clock e)) s4)) /\
    count is_telemetry o = 0 /\ same_net s s4 /\
    (find_body (pulse_lower e) (pulse_upper e) = 0 ->
     low_detect_time s4 = low_detect_time s /\
     up_detect_time s4 = up_detect_time s) /\
    (find_body (pulse_lower e) (pulse_upper e) <> 0 ->
     low_detect_time s4 = millis (clock e) \/
     up_detect_time s4 = millis (clock e)).
Proof.
  destruct (loop_stages e s)
    as (r & s1 & o1 & s2 & o2 & s4 & o4 & s5 & o5 & Hw & Hs & Hp & Hd & ->).
  exists s4, (o1 ++ o2 ++ o4). rewrite Hd. cbn [fst snd].
  pose proof (wifi_check_net (env_wifi e) s) as (W1 & W2 & W3 & W4).
  rewrite Hw in W1, W2, W3, W4. cbn [fst snd] in W1, W2, W3, W4.
  pose proof (on_sensor_net e (millis (clock e))
                (find_body (pulse_lower e) (pulse_upper e)) s1) as (S1 & S2).
  rewrite Hs in S1, S2. cbn [fst snd] in S1, S2.
  pose proof (light_timeout_net (millis (clock e)) s2) as T1.
  pose proof (light_timeout_light (millis (clock e)) s2) as T.
  cbv zeta in T. destruct T as (_ & _ & T3 & T4 & _).
  pose proof (porch_timeout_net e (millis (clock e))
                (light_timeout (millis (clock e)) s2)) as (P1 & P2 & P3 & P4).
  rewrite Hp in P1, P2, P3, P4. cbn [fst snd] in P1, P2, P3, P4.
  split; [now rewrite <- !app_assoc|].
  split; [rewrite !count_app; lia|].
  split; [unfold same_net in *; intuition congruence|].
  rewrite P3, P4, T3, T4.
  assert (D : (find_body (pulse_lower e) (pulse_upper e) = 0 ->
               low_detect_time s2 = low_detect_time s1 /\
               up_detect_time s2 = up_detect_time s1) /\
              (find_body (pulse_lower e) (pulse_upper e) <> 0 ->
               low_detect_time s2 = millis (clock e) \/
               up_detect_time s2 = millis (clock e))).
  { replace s2 with (fst (on_sensor e (millis (clock e))
                       (find_body (pulse_lower e) (pulse_upper e)) s1))
      by now rewrite Hs.
    pose proof (find_body_bits (pulse_lower e) (pulse_upper e)) as B.
    split.
    - intros Z0. rewrite Z0. unfold on_sensor. cbn. split; reflexivity.
    - intros N. unfold on_sensor, isItDark, porch_on.
      destruct (Z.eqb_spec (find_body (pulse_lower e) (pulse_upper e)) 0)
        as [Z0|_]; [contradiction|].
      destruct (B N) as [B1|B2]; [rewrite B1 | rewrite B2];
        repeat break_if; cbn; auto;
        repeat match goal with
               | H : (_, _) = (_, _) |- _ => inversion H; subst; clear H
               end; cbn; auto. }
  destruct D as [D0 D1]. split.
  - intros Z0. destruct (D0 Z0) as [-> ->]. split; assumption.
  - exact D1.
Qed.

(** X11.  No request, keep-alive or TLS connection is written in a pass in which
    a sensor sees a body, nor while a detection is 3000 ms old or less:
    telemetry traffic in a pass means that no sensor fired in it and that
    both detection times are more than 3000 ms back. *)
Theorem no_telemetry_near_detection (e : Env) (s : State) :
  count is_telemetry (snd (loop e s)) <> 0 ->
  find_body (pulse_lower e) (pulse_upper e) = 0 /\
  3000 < u32 (millis (clock e) - low_detect_time s) /\
  3000 < u32 (millis (clock e) - up_detect_time s).
Proof.
  destruct (loop_before_drain e s) as (s4 & o & -> & O & _ & D0 & D1).
  cbn [snd]. rewrite count_app, O, Z.add_0_l. intros H.
  assert (Q : quiet (millis (clock e)) s4 = true).
  { unfold drain_log in H. destruct (quiet _ s4); [reflexivity|].
    contradiction H. reflexivity. }
  unfold quiet in Q. apply andb_true_iff in Q as [Q1 Q2].
  apply Z.ltb_lt in Q1, Q2.
  destruct (Z.eq_dec (find_body (pulse_lower e) (pulse_upper e)) 0) as [Z0|N].
  - destruct (D0 Z0) as [L U]. rewrite L in Q1. rewrite U in Q2.
    split; [exact Z0 | split; assumption].
  - exfalso. destruct (D1 N) as [L|U].
    + rewrite L, Z.sub_diag in Q1. vm_compute in Q1. discriminate Q1.
    + rewrite U, Z.sub_diag in Q2. vm_compute in Q2. discriminate Q2.
Qed.

Lemma no_telemetry_near_detection_witness :
  let e := pass 5000 0 0 22 (switch_down 5000) (off_up 5000) in
  count is_telemetry (snd (loop e boot)) <> 0 /\
  find_body (pulse_lower e) (pulse_upper e) = 0 /\
  3000 < u32 (millis (clock e) - low_detect_time boot).
Proof.
  cbn zeta.
  assert (H : count is_telemetry
                (snd (loop (pass 5000 0 0 22 (switch_down 5000) (off_up 5000))
                        boot)) <> 0) by (vm_compute; discriminate).
  split; [exact H|].
  pose proof (no_telemetry_near_detection _ _ H) as (A & B & _).
  split; assumption.
Defined.

(** The three things the logging block can do, in their order of
    precedence. *)
Lemma drain_log_cases e t s :
  drain_log e t s =
  if quiet t s then
    match first_pending events s with
    | Some ev =>
        let sent := form_log (env_log e) (log_line ev t s) s in
        (if fst (fst sent) =? 0 then snd (fst sent)
         else assign (timestamp ev) 0 (snd (fst sent)), snd sent)
    | None =>
        if ssl_keepalive_interval <? u32 (t - last_ssl_activity s)
        then keepSSLWarm (env_keep e) s
        else porchLightHeartbeat (env_hb e) t s
    end
  else (s, []).
Proof.
  unfold drain_log. destruct (quiet t s); [|reflexivity].
  pose proof (scan_events_spec events e t s) as S. cbv zeta in S.
  destruct (first_pending events s); rewrite S; reflexivity.
Qed.

(** X12.  The keep-alive header goes out only when the sensors are quiet, no
    event waits in the registry and the telemetry socket has been idle for
    more than [ssl_keepalive_interval] (25000 ms); [keepSSLWarm] then restarts
    the idle time.  While an event waits, neither the keep-alive nor the
    heartbeat runs. *)
Theorem keepalive_only_when_idle (e : Env) (t : Z) (s : State) :
  let s' := fst (drain_log e t s) in
  let out := snd (drain_log e t s) in
  (In KeepAlive out ->
   quiet t s = true /\ first_pending events s = None /\
   ssl_keepalive_interval < u32 (t - last_ssl_activity s) /\
   last_ssl_activity s' = millis (ks_clock (env_keep e))) /\
  (first_pending events s <> None ->
   ~ In KeepAlive out /\ lastHeartbeat s' = lastHeartbeat s).
Proof.
  cbn zeta. rewrite drain_log_cases.
  destruct (quiet t s); [|cbn; split; [intros [] | intros _; split; auto]].
  destruct (first_pending events s) as [ev|].
  - assert (F : ~ In KeepAlive
                  (snd (form_log (env_log e) (log_line ev t s) s)) /\
                lastHeartbeat
                  (if fst (fst (form_log (env_log e) (log_line ev t s) s)) =? 0
                   then snd (fst (form_log (env_log e) (log_line ev t s) s))
                   else assign (timestamp ev) 0
                          (snd (fst (form_log (env_log e) (log_line ev t s) s))))
                = lastHeartbeat s).
    { unfold form_log. repeat break_if; cbn; split; try reflexivity;
        intros H; repeat (destruct H as [H|H]; [discriminate H|]);
        contradiction. }
    cbn zeta. cbn [fst snd]. split; [intros H; destruct (proj1 F H)|].
    intros _. exact F.
  - split; [|intros H; contradiction H; reflexivity].
    destruct (Z.ltb_spec ssl_keepalive_interval (u32 (t - last_ssl_activity s)))
      as [L|L].
    + unfold keepSSLWarm. cbn [fst snd]. intros _. repeat split. exact L.
    + unfold porchLightHeartbeat.
      repeat break_if; cbn; intros H;
        repeat (destruct H as [H|H]; [discriminate H|]); contradiction.
Qed.

Lemma drain_log_heartbeat e t s :
  (lastHeartbeat (fst (drain_log e t s)) = lastHeartbeat s \/
   (lastHeartbeat (fst (drain_log e t s)) = t /\
    heartbeatInterval < u32 (t - lastHeartbeat s))) /\
  (count is_connect (snd (drain_log e t s)) <> 0 ->
   lastHeartbeat (fst (drain_log e t s)) = t /\
   heartbeatInterval < u32 (t - lastHeartbeat s) /\
   quiet t s = true /\ first_pending events s = None /\
   u32 (t - last_ssl_activity s) <= ssl_keepalive_interval).
Proof.
  rewrite drain_log_cases.
  destruct (quiet t s); [|cbn; split; [left; reflexivity | intros []; reflexivity]].
  destruct (first_pending events s) as [ev|].
  - cbn zeta. unfold form_log.
    repeat break_if; cbn; (split; [left; reflexivity|]);
      intros H; contradiction H; reflexivity.
  - destruct (Z.ltb_spec ssl_keepalive_interval (u32 (t - last_ssl_activity s)))
      as [L|L].
    + unfold keepSSLWarm. cbn [fst snd]. split; [left; reflexivity|].
      destruct (negb _); cbn; intros H; contradiction H; reflexivity.
    + unfold porchLightHeartbeat.
      destruct (Z.ltb_spec heartbeatInterval (u32 (t - lastHeartbeat s)))
        as [B|B].
      * repeat break_if; cbn; (split; [right; split; [reflexivity|exact B]|]);
          intros _; repeat split; assumption.
      * cbn. split; [left; reflexivity|].
        intros H; contradiction H; reflexivity.
Qed.

(** X13.  [lastHeartbeat] only ever moves to the time of the current pass, and
    only when more than [heartbeatInterval] (1800000 ms, unsigned) have
    passed since its value.  The logging block contacts the switch only in
    such a pass, with the sensors quiet, no event waiting and the telemetry
    socket recently used: heartbeat queries are more than 30 minutes
    apart. *)
Theorem heartbeat_spacing (e : Env) (s : State) :
  let t := millis (clock e) in
  (lastHeartbeat (fst (loop e s)) = lastHeartbeat s \/
   (lastHeartbeat (fst (loop e s)) = t /\
    heartbeatInterval < u32 (t - lastHeartbeat s))) /\
  (forall s4,
     count is_connect (snd (drain_log e t s4)) <> 0 ->
     lastHeartbeat (fst (drain_log e t s4)) = t /\
     heartbeatInterval < u32 (t - lastHeartbeat s4) /\
     quiet t s4 = true /\ first_pending events s4 = None /\
     u32 (t - last_ssl_activity s4) <= ssl_keepalive_interval).
Proof.
  cbn zeta. split; [|intros s4; apply drain_log_heartbeat].
  destruct (loop_before_drain e s) as (s4 & o & -> & _ & (N & _) & _).
  cbn [fst]. rewrite <- N.
  apply (drain_log_heartbeat e (millis (clock e)) s4).
Qed.




Lemma setup_wifi_statics boot_env :
  last_wifi_try (fst (setup boot_env)) = 0.
Proof.
  unfold setup.
  pose proof (form_log_frame boot_env "SYSTEM BOOT V3.0" initial) as F.
  destruct (form_log _ _ initial) as [[r s1] o1].
  cbv zeta in F. cbn [fst snd] in F |- *.
  destruct F as (_ & _ & (_ & F) & _). rewrite F. reflexivity.
Qed.

(** X15.  [last_wifi_try] starts at 0, so during the first [wifi_try_time]
    (60000 ms) after power-up [wifi_check] never calls [WiFi.begin], whatever
    the state of the radio: when the association started by [setup] fails,
    the sketch stays off the network for the first minute. *)
Theorem no_reconnect_in_first_minute (boot_env : FormLogEnv) (es : list Env) :
  (forall e, In e es -> 0 <= wf_clock_a (env_wifi e) < wifi_try_time) ->
  count is_wifi_begin (snd (run es (fst (setup boot_env)))) = 0.
Proof.
  pose proof (setup_wifi_statics boot_env) as Z0.
  generalize dependent (fst (setup boot_env)). intros s Z0.
  revert s Z0. induction es as [|e rest IH]; intros s Z0 H; [reflexivity|].
  rewrite run_cons. cbn [snd]. rewrite count_app.
  pose proof (loop_wifi e s) as [L1 L2].
  assert (A : wifi_attempt (env_wifi e) s = false).
  { unfold wifi_attempt. rewrite Z0, Z.sub_0_r.
    pose proof (H e (or_introl eq_refl)) as He. unfold wifi_try_time in *.
    unfold millis, u32.
    rewrite (Z.mod_small (wf_clock_a (env_wifi e))) by lia.
    rewrite (Z.mod_small (wf_clock_a (env_wifi e))) by lia.
    destruct (Z.leb_spec 60000 (wf_clock_a (env_wifi e))); [lia|].
    apply andb_false_r. }
  rewrite A in L1, L2. rewrite L1, IH; [reflexivity | congruence |].
  intros e' He'. apply H. right. exact He'.
Qed.

Lemma no_reconnect_in_first_minute_witness :
  let es := [offline_pass 100; offline_pass 30000; offline_pass 59999] in
  count is_wifi_begin (snd (run es boot)) = 0.
Proof.
  cbn zeta.
  refine (no_reconnect_in_first_minute (mkFormLogEnv false false false 0) _ _).
  intros e [<-|[<-|[<-|[]]]]; vm_compute; split; discriminate || reflexivity.
Defined.

(** ** Progress of the event log *)

Lemma pending_count_sum s :
  pending_count s =
  Z.b2z (0 <? deref SlotWiFi s) + Z.b2z (0 <? deref SlotOn s)
  + Z.b2z (0 <? deref SlotPorchOn s) + Z.b2z (0 <? deref SlotOff s)
  + Z.b2z (0 <? deref SlotKasaFail s).
Proof.
  unfold pending_count, events. cbn [filter timestamp].
  destruct (0 <? deref SlotWiFi s), (0 <? deref SlotOn s),
    (0 <? deref SlotPorchOn s), (0 <? deref SlotOff s),
    (0 <? deref SlotKasaFail s); reflexivity.
Qed.

Lemma pending_count_same s s' :
  (forall p, deref p s' = deref p s) -> pending_count s' = pending_count s.
Proof. intros H. rewrite !pending_count_sum, !H. reflexivity. Qed.

Lemma pending_count_cleared p s :
  0 < deref p s -> pending_count (assign p 0 s) = pending_count s - 1.
Proof.
  intros H. apply Z.ltb_lt in H. rewrite !pending_count_sum, !deref_assign.
  destruct p; cbn [Slot_eqb]; rewrite H; cbn [Z.ltb Z.compare Z.b2z]; lia.
Qed.

Lemma pending_count_pos p s : 0 < deref p s -> 0 < pending_count s.
Proof.
  intros H. apply Z.ltb_lt in H. rewrite pending_count_sum.
  assert (B : forall b, 0 <= Z.b2z b) by (intros []; cbn; lia).
  pose proof (B (0 <? deref SlotWiFi s)). pose proof (B (0 <? deref SlotOn s)).
  pose proof (B (0 <? deref SlotPorchOn s)).
  pose proof (B (0 <? deref SlotOff s)).
  pose proof (B (0 <? deref SlotKasaFail s)).
  destruct p; rewrite H in *; cbn [Z.b2z] in *; lia.
Qed.

Lemma form_log_returns e m s :
  fst (fst (form_log e m s))
  = if fl_wifi e && (fl_connected e || fl_connectSSL e) then 1 else 0.
Proof.
  unfold form_log.
  destruct (fl_wifi e), (fl_connected e), (fl_connectSSL e); reflexivity.
Qed.

(** X16.  A pass in which the sensors are quiet, at least one event waits and
    [form_log] gets its request out (radio associated, socket open or
    opened) takes exactly one event off the registry; every other pass
    leaves the number of waiting events as it is.  So [k] waiting events are
    sent in [k] such passes, one per pass. *)
Theorem drain_progress (e : Env) (t : Z) (s : State) :
  let sent :=
    quiet t s && (0 <? pending_count s) && fl_wifi (env_log e)
    && (fl_connected (env_log e) || fl_connectSSL (env_log e)) in
  pending_count (fst (drain_log e t s))
    = pending_count s - (if sent then 1 else 0).
Proof.
  cbn zeta. rewrite drain_log_cases.
  destruct (quiet t s); cbn [andb]; [|cbn [fst]; lia].
  destruct (first_pending events s) as [ev|] eqn:Fp.
  - unfold first_pending in Fp. apply find_some in Fp as [_ Fp].
    apply Z.ltb_lt in Fp.
    pose proof (pending_count_pos _ _ Fp) as Pos.
    apply Z.ltb_lt in Pos. rewrite Pos. cbn [andb].
    cbn zeta. cbn [fst].
    rewrite form_log_returns.
    pose proof (form_log_frame (env_log e) (log_line ev t s) s) as F.
    cbv zeta in F. destruct F as (_ & _ & _ & _ & F).
    destruct (fl_wifi (env_log e) && _); cbn [Z.eqb].
    + rewrite pending_count_cleared by (rewrite F; exact Fp).
      now rewrite (pending_count_same _ _ F).
    + rewrite (pending_count_same _ _ F). lia.
  - assert (Z0 : pending_count s = 0).
    { unfold first_pending in Fp. rewrite pending_count_sum.
      assert (A : forall p, In p [SlotWiFi; SlotOn; SlotPorchOn; SlotOff;
                                  SlotKasaFail] ->
                            (0 <? deref p s) = false).
      { intros p Hp.
        assert (I : exists m0, In (mkLogEvent p m0) events)
          by (cbn in Hp; cbn;
              destruct Hp as [<-|[<-|[<-|[<-|[<-|[]]]]]]; eexists; eauto 6).
        destruct I as [m0 I]. exact (find_none _ _ Fp _ I). }
      rewrite !A by (cbn; tauto). reflexivity. }
    rewrite Z0. cbn [Z.ltb Z.compare andb]. rewrite Z.sub_0_r, <- Z0.
    pose proof (keep_or_heartbeat_slots e t s) as [K _].
    apply pending_count_same. exact K.
Qed.

(** ** Sessions with the switch *)

(** X17.  [porch_on], [porch_off] and [porchLightHeartbeat] never leave a
    connection to the switch open and never write outside one: what each
    of them sends is a sequence of whole sessions (connect, one frame,
    stop), ended at the first refused connection; [porch_on] opens at most
    two connections, the others at most one, and every frame is one of the
    three commands of the sketch. *)
Theorem kasa_sessions_closed (s : State) :
  (forall e,
     closed_sessions (snd (porch_on e s)) = true /\
     count is_connect (snd (porch_on e s)) <= 2) /\
  (forall e,
     closed_sessions (snd (porch_off e s)) = true /\
     count is_connect (snd (porch_off e s)) <= 1) /\
  (forall e t,
     closed_sessions (snd (porchLightHeartbeat e t s)) = true /\
     count is_connect (snd (porchLightHeartbeat e t s)) <= 1) /\
  (forall on off hb t frame,
     In (KasaWrite frame)
        (snd (porch_on on s) ++ snd (porch_off off s)
         ++ snd (porchLightHeartbeat hb t s)) ->
     frame = kasa_frame cmd_get_sysinfo \/ frame = kasa_frame cmd_on
     \/ frame = kasa_frame cmd_off).
Proof.
  unfold porch_on, porch_off, porchLightHeartbeat, sendKasaCommand, count.
  generalize (kasa_frame cmd_get_sysinfo) (kasa_frame cmd_on)
    (kasa_frame cmd_off).
  intros f1 f2 f3.
  split; [|split; [|split]].
  - intros e.
    repeat break_if;
      cbn [snd app closed_sessions filter is_connect List.length]; split;
      solve [reflexivity | lia].
  - intros e.
    repeat break_if;
      cbn [snd app closed_sessions filter is_connect List.length]; split;
      solve [reflexivity | lia].
  - intros e t.
    repeat break_if;
      cbn [snd app closed_sessions filter is_connect List.length]; split;
      solve [reflexivity | lia].
  - intros on off hb t frame.
    repeat break_if; cbn [snd app In]; intros H;
      repeat (destruct H as [H|H];
              [first [discriminate H | injection H as <-; tauto]|]);
      contradiction.
Qed.
